(** * manjaro-hello: locale resolution, page loading, autostart toggle

    A shallow embedding of the decision logic of [src/manjaro_hello.py]
    (the methods [Hello.get_best_locale], [Hello.set_autostart],
    [Hello.get_page], the start-up loading of the save record, and the
    module functions [fix_path], [read_json], [write_json]), together with
    the properties its specification states about them.

    Python [str] values are Rocq strings (characters are 8-bit, so the
    model covers code points below 256).  The file system is a finite map
    from path names to nodes; every function that touches it is written in
    a small state-and-exception monad, so that a raised exception is an
    ordinary result that can be observed. *)

From stdpp Require Import gmap strings list fin_maps.
From Stdlib Require Import String Ascii ZArith DecimalString Lia.

(** ** Python string operations used by the program *)

Module PyStr.

(** [sub in s] *)
Fixpoint contains (sub s : string) : bool :=
  String.prefix sub s ||
  match s with
  | EmptyString => false
  | String _ s' => contains sub s'
  end.

(** [s[:n]] *)
Definition slice_to (n : nat) (s : string) : string := String.substring 0 n s.

(** Scanning loop of [str.replace] for a non-empty [old]: the leftmost
    occurrence is replaced, the scan resumes right after it.  [skip]
    counts the characters of a matched occurrence still to be dropped. *)
Fixpoint replace_scan (old new : string) (skip : nat) (s : string) : string :=
  match s with
  | EmptyString => EmptyString
  | String c s' =>
      match skip with
      | S k => replace_scan old new k s'
      | O =>
          if String.prefix old s
          then new +:+ replace_scan old new (String.length old - 1) s'
          else String c (replace_scan old new 0 s')
      end
  end.

(** With an empty [old], Python puts [new] before every character and at
    the end. *)
Fixpoint intersperse (new s : string) : string :=
  match s with
  | EmptyString => new
  | String c s' => new +:+ String c (intersperse new s')
  end.

(** [s.replace(old, new)] *)
Definition replace (s old new : string) : string :=
  match old with
  | EmptyString => intersperse new s
  | String _ _ => replace_scan old new 0 s
  end.

(** ["{}".format(v)] for a value that is [None] or a [str]. *)
Definition format_opt (v : option string) : string :=
  match v with
  | None => "None"
  | Some s => s
  end.

End PyStr.

(** ** Exceptions and results *)

(** The [OSError] family, as far as the program can tell its members
    apart: it only ever catches the base class and prints the instance.
    [EnvFault] stands for every failure whose cause lies outside the modelled
    part of the file system (permissions, missing parent directory, full
    disk, I/O error, ...). *)
Inductive oserror : Type :=
| FileExistsError
| FileNotFoundError
| IsADirectoryError
| TooManyLinks
| EnvFault (errno : nat).

(** The exceptions the modelled code can raise.  [OutsideModel] is not a
    Python exception: it marks a run that leaves the modelled fragment (a
    JSON text with a floating-point number or a character above code
    point 255). *)
Inductive exn : Type :=
| OSError (e : oserror)
| TypeError
| UnicodeDecodeError
| JSONDecodeError
| OutsideModel.

Inductive result (A : Type) : Type :=
| Return (a : A)
| Raise (e : exn).
Arguments Return {A} a.
Arguments Raise {A} e.

(** ** The file system *)

(** What a regular file holds, seen through a text-mode file object:
    either text, or bytes that the locale's encoding cannot decode. *)
Inductive contents : Type :=
| Text (s : string)
| Undecodable.

(** Path names are opaque keys: a directory is a node of its own, and the
    target of a symbolic link is looked up as it is written.  Devices,
    FIFOs and sockets are not modelled. *)
Inductive node : Type :=
| RegFile (c : contents)
| SymLink (target : string)
| Directory.

(** Number of symbolic links the kernel follows before giving up (ELOOP). *)
Definition MAXSYMLINKS : nat := 40.

(** The name a path resolves to once the links in front of it are
    followed; [None] when there are too many of them. *)
Fixpoint follow (fs : gmap string node) (hops : nat) (p : string) : option string :=
  match fs !! p with
  | Some (SymLink t) =>
      match hops with
      | O => None
      | S h => follow fs h t
      end
  | _ => Some p
  end.

Definition realpath (fs : gmap string node) (p : string) : option string :=
  follow fs MAXSYMLINKS p.

(** [os.path.isfile]: follows links, [False] on every failure. *)
Definition isfile (fs : gmap string node) (p : string) : bool :=
  match realpath fs p with
  | Some q =>
      match fs !! q with
      | Some (RegFile _) => true
      | _ => false
      end
  | None => false
  end.

(** ** Program state and the monad *)

(** [files] is the file system, [faults] the schedule of environment
    failures (one entry is consumed by each system call that can fail:
    [Some e] makes it fail with [e], [None] and the empty schedule let it
    proceed), [stdout] what [print] has written, [self_autostart] the attribute
    [self.autostart]. *)
Record state : Type := mkState {
  files : gmap string node;
  faults : list (option oserror);
  stdout : list oserror;
  self_autostart : bool
}.

Definition M (A : Type) : Type := state → result A * state.

#[global] Instance M_ret : MRet M := λ A a st, (Return a, st).
#[global] Instance M_bind : MBind M := λ A B f m st,
  match m st with
  | (Return a, st') => f a st'
  | (Raise e, st') => (Raise e, st')
  end.

#[global] Instance M_fmap : FMap M := λ A B f m, a ← m; mret (f a).

Definition raise {A : Type} (e : exn) : M A := λ st, (Raise e, st).

(** [try: body  except OSError as error: handler(error)] *)
Definition try_except_OSError {A : Type} (body : M A) (handler : oserror → M A) : M A :=
  λ st,
    match body st with
    | (Raise (OSError e), st') => handler e st'
    | r => r
    end.

Definition get_files : M (gmap string node) := λ st, (Return (files st), st).

Definition set_files (fs : gmap string node) : M unit := λ st,
  (Return tt, mkState fs (faults st) (stdout st) (self_autostart st)).

(** [self.autostart = b] *)
Definition set_self_autostart (b : bool) : M unit := λ st,
  (Return tt, mkState (files st) (faults st) (stdout st) b).

(** [print(error)] *)
Definition print (e : oserror) : M unit := λ st,
  (Return tt, mkState (files st) (faults st) (stdout st ++ [e]) (self_autostart st)).

(** Consulted once by every system call that can fail. *)
Definition syscall : M unit := λ st,
  match faults st with
  | [] => (Return tt, st)
  | None :: rest => (Return tt, mkState (files st) rest (stdout st) (self_autostart st))
  | Some e :: rest =>
      (Raise (OSError e), mkState (files st) rest (stdout st) (self_autostart st))
  end.

(** ** System calls and file objects *)

Definition os_path_isfile (p : string) : M bool := λ st,
  (Return (isfile (files st) p), st).

(** [os.symlink(src, dst)]: refuses a [dst] that is already there, whatever
    it is (a dangling link included). *)
Definition os_symlink (src dst : string) : M unit :=
  syscall;;
  fs ← get_files;
  match fs !! dst with
  | Some _ => raise (OSError FileExistsError)
  | None => set_files (<[dst := SymLink src]> fs)
  end.

(** [os.unlink(p)]: removes the name itself, never the target of a link. *)
Definition os_unlink (p : string) : M unit :=
  syscall;;
  fs ← get_files;
  match fs !! p with
  | None => raise (OSError FileNotFoundError)
  | Some Directory => raise (OSError IsADirectoryError)
  | Some _ => set_files (delete p fs)
  end.

Inductive open_mode : Type := mode_r | mode_r_plus | mode_w.

(** An open text file: the name it was resolved to and the position of the
    next read or write. *)
Record file : Type := mkFile {
  f_name : string;
  f_pos : nat
}.

Definition str_take (n : nat) (s : string) : string := String.substring 0 n s.
Definition str_drop (n : nat) (s : string) : string :=
  String.substring n (String.length s - n) s.

(** [open(path, mode)]: ["r"] and ["r+"] need an existing regular file,
    ["w"] creates the file or empties it. *)
Definition open_ (path : string) (mode : open_mode) : M file :=
  syscall;;
  fs ← get_files;
  match realpath fs path with
  | None => raise (OSError TooManyLinks)
  | Some q =>
      match fs !! q with
      | Some (RegFile _) =>
          match mode with
          | mode_w => set_files (<[q := RegFile (Text EmptyString)]> fs);; mret (mkFile q 0)
          | _ => mret (mkFile q 0)
          end
      | Some Directory => raise (OSError IsADirectoryError)
      | Some (SymLink _) => raise (OSError TooManyLinks)
      | None =>
          match mode with
          | mode_w => set_files (<[q := RegFile (Text EmptyString)]> fs);; mret (mkFile q 0)
          | _ => raise (OSError FileNotFoundError)
          end
      end
  end.

(** [f.read()]: the text from the current position to the end. *)
Definition file_read (f : file) : M (string * file) :=
  syscall;;
  fs ← get_files;
  match fs !! f_name f with
  | Some (RegFile (Text s)) =>
      mret (str_drop (f_pos f) s, mkFile (f_name f) (String.length s))
  | Some (RegFile Undecodable) => raise UnicodeDecodeError
  | _ => raise (OSError FileNotFoundError)
  end.

(** [f.seek(n)] *)
Definition file_seek (f : file) (n : nat) : M file :=
  syscall;;
  mret (mkFile (f_name f) n).

(** [f.write(s)]: overwrites from the current position on, extending the
    file when [s] reaches past its end. *)
Definition file_write (f : file) (s : string) : M file :=
  syscall;;
  fs ← get_files;
  match fs !! f_name f with
  | Some (RegFile (Text old)) =>
      set_files (<[f_name f :=
                     RegFile (Text (str_take (f_pos f) old +:+ s +:+
                                    str_drop (f_pos f + String.length s) old))]> fs);;
      mret (mkFile (f_name f) (f_pos f + String.length s))
  | Some (RegFile Undecodable) => raise OutsideModel
  | _ => raise (OSError FileNotFoundError)
  end.

(** [f.truncate()]: cuts the file at the current position. *)
Definition file_truncate (f : file) : M unit :=
  syscall;;
  fs ← get_files;
  match fs !! f_name f with
  | Some (RegFile (Text old)) =>
      set_files (<[f_name f := RegFile (Text (str_take (f_pos f) old))]> fs)
  | Some (RegFile Undecodable) => raise OutsideModel
  | _ => raise (OSError FileNotFoundError)
  end.

(** Closing flushes, which can fail like any other call. *)
Definition file_close (f : file) : M unit := syscall.

(** [with open(path, mode) as f: body]: the file is closed on the way out,
    also when [body] raised; an error of the closing replaces the outcome
    of [body]. *)
Definition closing {A : Type} (f : file) (body : M A) : M A := λ st,
  match body st with
  | (r, st') =>
      match file_close f st' with
      | (Return _, st'') => (r, st'')
      | (Raise e, st'') => (Raise e, st'')
      end
  end.

Definition with_open {A : Type} (path : string) (mode : open_mode)
    (body : file → M A) : M A :=
  f ← open_ path mode;
  closing f (body f).

(** ** Preferences and process environment *)

(** The keys of the preferences file that the modelled functions read. *)
Record preferences : Type := mkPreferences {
  data_path : string;
  desktop_path : string;
  locale_path : string;
  autostart_path : string;
  save_path : string;
  default_locale : string
}.

(** What the process reads from its environment: [os.path.expanduser("~")],
    [locale.getdefaultlocale()[0]] and the installed translation [_]. *)
Record environ : Type := mkEnviron {
  home : string;
  sys_locale : option string;
  gettext : string → string
}.

(** [self.app] *)
Definition app : string := "manjaro-hello".

(** ** fix_path *)

Definition fix_path (env : environ) (path : string) : string :=
  if PyStr.contains "~" path
  then PyStr.replace path "~" (home env)
  else path.

(** ** Hello.get_best_locale *)

(** [path.format(x)] for
    [path = self.preferences["locale_path"] + "{}/LC_MESSAGES/" + self.app + ".mo"]
    (with a [locale_path] free of braces). *)
Definition mo_path (prefs : preferences) (x : option string) : string :=
  locale_path prefs +:+ PyStr.format_opt x +:+ "/LC_MESSAGES/" +:+ app +:+ ".mo".

(** [saved] is the value of [self.save["locale"]], [None] or a string. *)
Definition get_best_locale (prefs : preferences) (env : environ)
    (fs : gmap string node) (saved : option string) : result (option string) :=
  if isfile fs (mo_path prefs saved) then Return saved
  else if decide (saved = Some (default_locale prefs)) then Return (Some (default_locale prefs))
  else
    if isfile fs (mo_path prefs (sys_locale env)) then
      match sys_locale env with
      | None => Raise TypeError
      | Some l =>
          if PyStr.contains "_" l
          then Return (Some (PyStr.replace l "_" "-"))
          else Return (Some l)
      end
    else
      match sys_locale env with
      | None => Raise TypeError
      | Some l =>
          if isfile fs (mo_path prefs (Some (PyStr.slice_to 2 l)))
          then Return (Some (PyStr.slice_to 2 l))
          else Return (Some (default_locale prefs))
      end.

(** The asset-existence query of the resolver: is there a compiled
    catalogue for locale [x]? *)
Definition asset_exists (prefs : preferences) (fs : gmap string node)
    (x : option string) : bool :=
  isfile fs (mo_path prefs x).

(** ** Hello.set_autostart *)

Definition i3_autostart : string := "exec --no-startup-id " +:+ app.

(** The statements between [try:] and [except]. *)
Definition set_autostart_body (prefs : preferences) (env : environ)
    (autostart : bool) : M unit :=
  c1 ← (if autostart
        then negb <$> os_path_isfile (fix_path env (autostart_path prefs))
        else mret false);
  (if c1 : bool
   then os_symlink (desktop_path prefs) (fix_path env (autostart_path prefs))
   else
     c2 ← (if negb autostart
           then os_path_isfile (fix_path env (autostart_path prefs))
           else mret false);
     if c2 : bool
     then os_unlink (fix_path env (autostart_path prefs))
     else mret tt);;
  let i3_config := fix_path env "~/.i3/config" in
  has_i3 ← os_path_isfile i3_config;
  (if has_i3 : bool
   then
     with_open i3_config mode_r_plus (λ file,
       '(content, file) ← file_read file;
       file ← file_seek file 0;
       file ← (if autostart
               then file_write file (PyStr.replace content ("#" +:+ i3_autostart) i3_autostart)
               else file_write file (PyStr.replace content i3_autostart ("#" +:+ i3_autostart)));
       file_truncate file)
   else mret tt);;
  set_self_autostart autostart.

Definition set_autostart (prefs : preferences) (env : environ)
    (autostart : bool) : M unit :=
  try_except_OSError (set_autostart_body prefs env autostart) (λ error, print error).

(** ** Hello.get_page *)

(** [self.preferences["data_path"] + "pages/{}/{}".format(loc, name)] *)
Definition page_path (prefs : preferences) (loc : option string) (name : string) : string :=
  data_path prefs +:+ "pages/" +:+ PyStr.format_opt loc +:+ "/" +:+ name.

Definition cant_load_page : string := "Can't load page.".

(** [saved] is the value of [self.save["locale"]], [None] or a string. *)
Definition get_page (prefs : preferences) (env : environ)
    (saved : option string) (name : string) : M string :=
  let filename := page_path prefs saved name in
  present ← os_path_isfile filename;
  let filename :=
    if negb present
    then page_path prefs (Some (default_locale prefs)) name
    else filename in
  try_except_OSError
    (with_open filename mode_r (λ fil, fst <$> file_read fil))
    (λ _, mret (gettext env cant_load_page)).

(** The layout of the page store in the words of the specification:
    [<pages-root>/<locale>/<page>], the root being the directory [pages]
    of the data directory. *)
Definition pages_root (prefs : preferences) : string := data_path prefs +:+ "pages".

Definition page_file (root locale page : string) : string :=
  root +:+ "/" +:+ locale +:+ "/" +:+ page.

(** Does the environment fail one of the next [n] system calls? *)
Definition fails_within (n : nat) (schedule : list (option oserror)) : bool :=
  existsb (λ x, match x with Some _ => true | None => false end) (take n schedule).

(** ** The json module *)

(** The values [json.load] produces and [json.dump] accepts: [None],
    [bool], [int], [str], [list] and [dict] with string keys (a dictionary
    is kept in insertion order, one entry per key).  Floating-point
    numbers and characters above code point 255 are not part of the model:
    a text that needs them decodes to [Unmodelled]. *)
#[warnings="-register-all"]
Inductive json : Type :=
| JNull
| JBool (b : bool)
| JInt (z : Z)
| JStr (s : string)
| JArr (l : list json)
| JObj (d : list (string * json)).

Module Json.

(** [bool(v)], as tested by [if not v]. *)
Definition truthy (v : json) : bool :=
  match v with
  | JNull => false
  | JBool b => b
  | JInt z => negb (z =? 0)%Z
  | JStr s => negb (String.eqb s EmptyString)
  | JArr l => match l with [] => false | _ => true end
  | JObj d => match d with [] => false | _ => true end
  end.

(** [d[k] = v] on a dictionary: an entry that is there keeps its place. *)
Fixpoint dict_set (k : string) (v : json) (d : list (string * json))
    : list (string * json) :=
  match d with
  | [] => [(k, v)]
  | (k', v') :: d' =>
      if String.eqb k k' then (k, v) :: d' else (k', v') :: dict_set k v d'
  end.

(** [dict(pairs)] *)
Definition dict_of_pairs (pairs : list (string * json)) : list (string * json) :=
  fold_left (λ d kv, dict_set (fst kv) (snd kv) d) pairs [].

Fixpoint dict_get (k : string) (d : list (string * json)) : option json :=
  match d with
  | [] => None
  | (k', v) :: d' => if String.eqb k k' then Some v else dict_get k d'
  end.

(** *** Encoder ([json.dumps] with its default settings) *)

(** The double quote. *)
Definition dquote : ascii := ascii_of_nat 34.

Definition hex_digit (n : nat) : ascii :=
  if n <? 10 then ascii_of_nat (48 + n) else ascii_of_nat (87 + n).

(** One character of a string under [ensure_ascii]. *)
Definition escape_char (c : ascii) : string :=
  let n := nat_of_ascii c in
  if Ascii.eqb c dquote then String "\" (String dquote EmptyString)
  else if Ascii.eqb c "\" then String "\" (String "\" EmptyString)
  else if n =? 10 then String "\" (String "n" EmptyString)
  else if n =? 13 then String "\" (String "r" EmptyString)
  else if n =? 9 then String "\" (String "t" EmptyString)
  else if n =? 8 then String "\" (String "b" EmptyString)
  else if n =? 12 then String "\" (String "f" EmptyString)
  else if (32 <=? n) && (n <=? 126) then String c EmptyString
  else String "\" (String "u" (String "0" (String "0"
         (String (hex_digit (n / 16)) (String (hex_digit (n mod 16)) EmptyString))))).

Fixpoint escape (s : string) : string :=
  match s with
  | EmptyString => EmptyString
  | String c s' => (escape_char c +:+ escape s')
  end.

Definition encode_string (s : string) : string :=
  String dquote (escape s +:+ String dquote EmptyString).

Fixpoint join (sep : string) (l : list string) : string :=
  match l with
  | [] => EmptyString
  | [x] => x
  | x :: l' => (x +:+ sep +:+ join sep l')
  end.

Definition encode_int (z : Z) : string :=
  DecimalString.NilZero.string_of_int (Z.to_int z).

Fixpoint dumps (v : json) : string :=
  match v with
  | JNull => "null"
  | JBool true => "true"
  | JBool false => "false"
  | JInt z => encode_int z
  | JStr s => encode_string s
  | JArr l => ("[" +:+ join ", " (map dumps l) +:+ "]")
  | JObj d =>
      ("{" +:+ join ", " (map (λ kv, encode_string (fst kv) +:+ ": " +:+ dumps (snd kv)) d)
           +:+ "}")
  end.

(** *** Decoder ([json.loads]) *)

Inductive parsed (A : Type) : Type :=
| POk (a : A) (rest : string)
| PErr
| PUnmodelled.
Arguments POk {A} a rest.
Arguments PErr {A}.
Arguments PUnmodelled {A}.

Definition pmap {A B : Type} (f : A → B) (p : parsed A) : parsed B :=
  match p with
  | POk a rest => POk (f a) rest
  | PErr => PErr
  | PUnmodelled => PUnmodelled
  end.

Definition is_ws (c : ascii) : bool :=
  let n := nat_of_ascii c in
  (n =? 32) || (n =? 9) || (n =? 10) || (n =? 13).

Fixpoint skip_ws (s : string) : string :=
  match s with
  | EmptyString => EmptyString
  | String c s' => if is_ws c then skip_ws s' else s
  end.

Definition hex_value (c : ascii) : option nat :=
  let n := nat_of_ascii c in
  if (48 <=? n) && (n <=? 57) then Some (n - 48)
  else if (97 <=? n) && (n <=? 102) then Some (n - 87)
  else if (65 <=? n) && (n <=? 70) then Some (n - 55)
  else None.

Definition hex4 (a b c d : ascii) : option nat :=
  match hex_value a, hex_value b, hex_value c, hex_value d with
  | Some x, Some y, Some z, Some w => Some (((x * 16 + y) * 16 + z) * 16 + w)
  | _, _, _, _ => None
  end.

(** The character a one-letter escape stands for. *)
Definition unescape (e : ascii) : option ascii :=
  if Ascii.eqb e dquote then Some dquote
  else if Ascii.eqb e "\" then Some "\"%char
  else if Ascii.eqb e "/" then Some "/"%char
  else if Ascii.eqb e "b" then Some (ascii_of_nat 8)
  else if Ascii.eqb e "f" then Some (ascii_of_nat 12)
  else if Ascii.eqb e "n" then Some (ascii_of_nat 10)
  else if Ascii.eqb e "r" then Some (ascii_of_nat 13)
  else if Ascii.eqb e "t" then Some (ascii_of_nat 9)
  else None.

(** The body of a string, after its opening quote (strict mode: a raw
    control character is an error). *)
Fixpoint scanstring (s : string) : parsed string :=
  match s with
  | EmptyString => PErr
  | String c s' =>
      if Ascii.eqb c dquote then POk EmptyString s'
      else if Ascii.eqb c "\" then
        match s' with
        | EmptyString => PErr
        | String e s'' =>
            match unescape e with
            | Some ch => pmap (String ch) (scanstring s'')
            | None =>
                if Ascii.eqb e "u" then
                  match s'' with
                  | String h1 (String h2 (String h3 (String h4 s3))) =>
                      match hex4 h1 h2 h3 h4 with
                      | Some n =>
                          if n <? 256
                          then pmap (String (ascii_of_nat n)) (scanstring s3)
                          else PUnmodelled
                      | None => PErr
                      end
                  | _ => PErr
                  end
                else PErr
            end
        end
      else if nat_of_ascii c <? 32 then PErr
      else pmap (String c) (scanstring s')
  end.

Definition is_digit (c : ascii) : bool :=
  let n := nat_of_ascii c in (48 <=? n) && (n <=? 57).

Definition digit_value (c : ascii) : Z := Z.of_nat (nat_of_ascii c - 48).

Fixpoint digits (acc : Z) (s : string) : Z * string :=
  match s with
  | EmptyString => (acc, s)
  | String c s' =>
      if is_digit c then digits (10 * acc + digit_value c)%Z s' else (acc, s)
  end.

(** An integer literal is accepted as such only when no fraction or
    exponent follows it. *)
Definition int_end (z : Z) (rest : string) : parsed json :=
  match rest with
  | String c _ =>
      if Ascii.eqb c "." || Ascii.eqb c "e" || Ascii.eqb c "E"
      then PUnmodelled
      else POk (JInt z) rest
  | EmptyString => POk (JInt z) rest
  end.

Definition unsigned_number (sign : Z) (s : string) : parsed json :=
  match s with
  | EmptyString => PErr
  | String c s' =>
      if Ascii.eqb c "0" then int_end 0 s'
      else if is_digit c then
        let '(n, rest) := digits (digit_value c) s' in int_end (sign * n) rest
      else PErr
  end.

(** The rest of [s] after its first character, when that is [c]. *)
Definition after (c : ascii) (s : string) : option string :=
  match s with
  | EmptyString => None
  | String c' rest => if Ascii.eqb c' c then Some rest else None
  end.

Definition number (s : string) : parsed json :=
  match after "-" s with
  | Some s' =>
      if String.prefix "Infinity" s' then PUnmodelled else unsigned_number (-1) s'
  | None =>
      if String.prefix "NaN" s || String.prefix "Infinity" s
      then PUnmodelled
      else unsigned_number 1 s
  end.

(** [scan_once] with the loops of [JSONArray] and [JSONObject].  [elems]
    and [members] start at a value, respectively at the opening quote of
    a key, and collect what they read in reverse.  [fuel] bounds the
    nesting of calls ([loads] starts with twice the length of the text
    plus two); a run that exhausts it is [PUnmodelled]. *)
Fixpoint value (fuel : nat) (s : string) {struct fuel} : parsed json :=
  match fuel with
  | O => PUnmodelled
  | S fuel' =>
      match s with
      | EmptyString => PErr
      | String c s' =>
          if Ascii.eqb c dquote then pmap JStr (scanstring s')
          else if Ascii.eqb c "{" then
            match after "}" (skip_ws s') with
            | Some rest => POk (JObj []) rest
            | None => members fuel' [] (skip_ws s')
            end
          else if Ascii.eqb c "[" then
            match after "]" (skip_ws s') with
            | Some rest => POk (JArr []) rest
            | None => elems fuel' [] (skip_ws s')
            end
          else if String.prefix "null" s then POk JNull (str_drop 4 s)
          else if String.prefix "true" s then POk (JBool true) (str_drop 4 s)
          else if String.prefix "false" s then POk (JBool false) (str_drop 5 s)
          else number s
      end
  end
with elems (fuel : nat) (acc : list json) (s : string) {struct fuel} : parsed json :=
  match fuel with
  | O => PUnmodelled
  | S fuel' =>
      match value fuel' s with
      | POk v rest =>
          match after "]" (skip_ws rest) with
          | Some rest' => POk (JArr (rev (v :: acc))) rest'
          | None =>
              match after "," (skip_ws rest) with
              | Some rest' => elems fuel' (v :: acc) (skip_ws rest')
              | None => PErr
              end
          end
      | PErr => PErr
      | PUnmodelled => PUnmodelled
      end
  end
with members (fuel : nat) (acc : list (string * json)) (s : string) {struct fuel}
    : parsed json :=
  match fuel with
  | O => PUnmodelled
  | S fuel' =>
      match after dquote s with
      | None => PErr
      | Some s' =>
          match scanstring s' with
          | POk k rest =>
              match after ":" (skip_ws rest) with
              | None => PErr
              | Some rest' =>
                  match value fuel' (skip_ws rest') with
                  | POk v rest'' =>
                      match after "}" (skip_ws rest'') with
                      | Some r => POk (JObj (dict_of_pairs (rev ((k, v) :: acc)))) r
                      | None =>
                          match after "," (skip_ws rest'') with
                          | Some r => members fuel' ((k, v) :: acc) (skip_ws r)
                          | None => PErr
                          end
                      end
                  | PErr => PErr
                  | PUnmodelled => PUnmodelled
                  end
              end
          | PErr => PErr
          | PUnmodelled => PUnmodelled
          end
      end
  end.

Inductive decoded : Type :=
| Decoded (v : json)
| Malformed
| Unmodelled.

(** [json.loads(s)]: one value, white space around it, nothing else. *)
Definition loads (s : string) : decoded :=
  match value (2 * String.length s + 2) (skip_ws s) with
  | POk v rest =>
      match skip_ws rest with
      | EmptyString => Decoded v
      | _ => Malformed
      end
  | PErr => Malformed
  | PUnmodelled => Unmodelled
  end.

End Json.

(** [json.load(fil)] *)
Definition json_load (fil : file) : M json :=
  '(text, _) ← file_read fil;
  match Json.loads text with
  | Json.Decoded v => mret v
  | Json.Malformed => raise JSONDecodeError
  | Json.Unmodelled => raise OutsideModel
  end.

(** [json.dump(content, fil)] *)
Definition json_dump (content : json) (fil : file) : M unit :=
  file_write fil (Json.dumps content);;
  mret tt.

(** ** read_json, write_json and the save record at start-up *)

(** Python's [None] is [JNull]. *)
Definition read_json (env : environ) (path : string) : M json :=
  let path := fix_path env path in
  try_except_OSError
    (with_open path mode_r (λ fil, json_load fil))
    (λ _, mret JNull).

Definition write_json (env : environ) (path : string) (content : json) : M unit :=
  let path := fix_path env path in
  try_except_OSError
    (with_open path mode_w (λ fil, json_dump content fil))
    (λ error, print error).

(** [{"locale": None}] *)
Definition default_save : json := JObj [("locale", JNull)].

(** [Hello.__init__], the statements that load the save record:
    [self.save = read_json(self.preferences["save_path"])], then
    [if not self.save: self.save = {"locale": None}].  The result is the
    value of [self.save]. *)
Definition init_save (prefs : preferences) (env : environ) : M json :=
  save ← read_json env (save_path prefs);
  if negb (Json.truthy save) then mret default_save else mret save.

(** [v[k]] for a string [k]: only a dictionary that has the key answers. *)
Definition subscript (v : json) (k : string) : option json :=
  match v with
  | JObj d => Json.dict_get k d
  | _ => None
  end.

(** ** Reference definitions for the statements *)

(** Does the character [c] occur in [s]? *)
Fixpoint occurs (c : ascii) (s : string) : Prop :=
  match s with
  | EmptyString => False
  | String c' s' => c' = c ∨ occurs c s'
  end.

(** The reading of [fix_path] character by character: every tilde becomes
    the home directory, every other character stays. *)
Fixpoint expand_tilde (home_dir path : string) : string :=
  match path with
  | EmptyString => EmptyString
  | String c p =>
      if Ascii.eqb c "~"
      then home_dir +:+ expand_tilde home_dir p
      else String c (expand_tilde home_dir p)
  end.

(** The path [p] leads to a regular file whose text is [body]. *)
Definition holds_text (fs : gmap string node) (p body : string) : Prop :=
  ∃ q, realpath fs p = Some q ∧ fs !! q = Some (RegFile (Text body)).

(** The path [p] leads to a regular file that is not text. *)
Definition holds_undecodable (fs : gmap string node) (p : string) : Prop :=
  ∃ q, realpath fs p = Some q ∧ fs !! q = Some (RegFile Undecodable).

(** A computation that touches neither [stdout] nor [self.autostart]. *)
Definition frames {A : Type} (m : M A) : Prop :=
  ∀ st r st', m st = (r, st') →
    stdout st' = stdout st ∧ self_autostart st' = self_autostart st.


(** The save record [{"locale": l}]. *)
Definition save_record (l : string) : json := JObj [("locale", JStr l)].

(** ** Sample installations *)

Module Sample.

Definition prefs : preferences :=
  {| data_path := "/usr/share/manjaro-hello/data/";
     desktop_path := "/usr/share/applications/manjaro-hello.desktop";
     locale_path := "/usr/share/locale/";
     autostart_path := "~/.config/autostart/manjaro-hello.desktop";
     save_path := "~/.config/manjaro-hello.json";
     default_locale := "en" |}.

Definition env (sys : option string) : environ :=
  {| home := "/home/user"; sys_locale := sys; gettext := λ s, s |}.

Definition mo (loc : string) : string :=
  "/usr/share/locale/" +:+ loc +:+ "/LC_MESSAGES/manjaro-hello.mo".

(** Only the catalogue of [en_US] is installed. *)
Definition fs_en_US : gmap string node :=
  {[ mo "en_US" := RegFile Undecodable ]}.

(** Only the catalogue of [de] is installed. *)
Definition fs_de : gmap string node :=
  {[ mo "de" := RegFile Undecodable ]}.

Definition i3_config : string := "/home/user/.i3/config".
Definition autostart_link : string := "/home/user/.config/autostart/manjaro-hello.desktop".
Definition save_file : string := "/home/user/.config/manjaro-hello.json".

(** An i3 user, autostart off: the desktop entry is installed, the launch
    line of the i3 configuration is active. *)
Definition fs_i3 : gmap string node :=
  {[ desktop_path prefs := RegFile (Text "[Desktop Entry]");
     i3_config := RegFile (Text "exec --no-startup-id manjaro-hello") ]}.

(** Autostart on: the link to the desktop entry is in place. *)
Definition fs_registered : gmap string node :=
  <[ autostart_link := SymLink (desktop_path prefs) ]> fs_i3.

(** The desktop entry is missing, so a link to it dangles. *)
Definition fs_dangling : gmap string node :=
  {[ autostart_link := SymLink (desktop_path prefs) ]}.

(** English pages only; the page [broken] holds bytes that are not text. *)
Definition fs_pages : gmap string node :=
  {[ "/usr/share/manjaro-hello/data/pages/en/about" := RegFile (Text "About text");
     "/usr/share/manjaro-hello/data/pages/en/broken" := RegFile Undecodable ]}.

(** German and English pages; the German page [broken] holds bytes that
    are not text, its English counterpart is fine. *)
Definition fs_pages_de : gmap string node :=
  {[ "/usr/share/manjaro-hello/data/pages/de/about" := RegFile (Text "Ueber Manjaro");
     "/usr/share/manjaro-hello/data/pages/de/broken" := RegFile Undecodable;
     "/usr/share/manjaro-hello/data/pages/en/about" := RegFile (Text "About text");
     "/usr/share/manjaro-hello/data/pages/en/broken" := RegFile (Text "Mended") ]}.

(** A save file cut short. *)
Definition fs_bad_save : gmap string node :=
  {[ save_file := RegFile (Text "{") ]}.

Definition start (fs : gmap string node) : state :=
  {| files := fs; faults := []; stdout := []; self_autostart := false |}.

(** The same, with a schedule of environment failures and a value of
    [self.autostart]. *)
Definition start_with (fs : gmap string node) (schedule : list (option oserror))
    (flag : bool) : state :=
  {| files := fs; faults := schedule; stdout := []; self_autostart := flag |}.

End Sample.

Arguments realpath : simpl never.
Arguments isfile : simpl never.

(** ** Start-up and shutdown around the modelled functions *)

(** [Hello.__init__], the statement that sets the autostart switch:
    [self.autostart = os.path.isfile(fix_path(self.preferences["autostart_path"]))]. *)
Definition init_autostart (prefs : preferences) (env : environ) : M unit :=
  present ← os_path_isfile (fix_path env (autostart_path prefs));
  set_self_autostart present.

(** [Hello.on_delete_window]: [write_json(self.preferences["save_path"], self.save)];
    [save] is the value of [self.save].  The call that ends the main loop
    is outside the model. *)
Definition on_delete_window (prefs : preferences) (env : environ) (save : json) : M unit :=
  write_json env (save_path prefs) save.

(** ** Names for the parts of set_autostart *)

(** The two names [set_autostart] works on. *)
Definition link_path (prefs : preferences) (env : environ) : string :=
  fix_path env (autostart_path prefs).

Definition i3_config_path (env : environ) : string := fix_path env "~/.i3/config".

(** The first statement of the [try] block: create or remove the link. *)
Definition toggle_link (prefs : preferences) (env : environ) (autostart : bool) : M unit :=
  c1 ← (if autostart
        then negb <$> os_path_isfile (fix_path env (autostart_path prefs))
        else mret false);
  if c1 : bool
  then os_symlink (desktop_path prefs) (fix_path env (autostart_path prefs))
  else
    c2 ← (if negb autostart
          then os_path_isfile (fix_path env (autostart_path prefs))
          else mret false);
    if c2 : bool
    then os_unlink (fix_path env (autostart_path prefs))
    else mret tt.

(** The text the i3 block writes back for the text [content] it has read. *)
Definition i3_rewrite (autostart : bool) (content : string) : string :=
  if autostart
  then PyStr.replace content ("#" +:+ i3_autostart) i3_autostart
  else PyStr.replace content i3_autostart ("#" +:+ i3_autostart).

(** The block under [# Specific to i3]. *)
Definition rewrite_i3 (env : environ) (autostart : bool) : M unit :=
  let i3_config := fix_path env "~/.i3/config" in
  has_i3 ← os_path_isfile i3_config;
  if has_i3 : bool
  then
    with_open i3_config mode_r_plus (λ file,
      '(content, file) ← file_read file;
      file ← file_seek file 0;
      file ← (if autostart
              then file_write file (PyStr.replace content ("#" +:+ i3_autostart) i3_autostart)
              else file_write file (PyStr.replace content i3_autostart ("#" +:+ i3_autostart)));
      file_truncate file)
  else mret tt.

(** Two nodes under one name, before and after: the same node, or a text
    file whose text was replaced. *)
Definition same_or_text (a b : option node) : Prop :=
  b = a ∨ ∃ c c', a = Some (RegFile (Text c)) ∧ b = Some (RegFile (Text c')).

(** A computation that changes nothing in the file system but the text of
    text files. *)
Definition text_edits {A : Type} (m : M A) : Prop :=
  ∀ st r st', m st = (r, st') → ∀ p, same_or_text (files st !! p) (files st' !! p).

(** A computation that leaves the file system as it is. *)
Definition read_only {A : Type} (m : M A) : Prop :=
  ∀ st r st', m st = (r, st') → files st' = files st.

(** The save record [{"locale": v}] for [v] a string or [None]. *)
Definition save_of (v : option string) : json :=
  JObj [("locale", match v with Some l => JStr l | None => JNull end)].

(** The file system after the link was toggled as the transition table
    has it: created when wanted and not there, removed when unwanted and
    there, left alone otherwise.  "There" is [os.path.isfile]. *)
Definition link_after (prefs : preferences) (env : environ) (autostart : bool)
    (fs : gmap string node) : gmap string node :=
  if isfile fs (link_path prefs env)
  then if autostart then fs else delete (link_path prefs env) fs
  else if autostart
       then <[link_path prefs env := SymLink (desktop_path prefs)]> fs
       else fs.

(** ** get_lsb_infos *)

Module PyText.

(** [c.isspace()] for a character below code point 256. *)
Definition is_space (c : ascii) : bool :=
  let n := nat_of_ascii c in
  ((9 <=? n) && (n <=? 13)) || ((28 <=? n) && (n <=? 32)) || (n =? 133) || (n =? 160).

(** [s.rstrip()] *)
Fixpoint rstrip (s : string) : string :=
  match s with
  | EmptyString => EmptyString
  | String c s' =>
      match rstrip s' with
      | EmptyString => if is_space c then EmptyString else String c EmptyString
      | r => String c r
      end
  end.

(** [s.split(sep)] for a separator of one character. *)
Fixpoint split_on (sep : ascii) (s : string) : list string :=
  match s with
  | EmptyString => [EmptyString]
  | String c s' =>
      if Ascii.eqb c sep then EmptyString :: split_on sep s'
      else match split_on sep s' with
           | [] => [String c EmptyString]
           | part :: parts => String c part :: parts
           end
  end.

(** The lines a text file yields when it is iterated: each one ends with
    its line feed, except possibly the last. *)
Fixpoint readlines (s : string) : list string :=
  match s with
  | EmptyString => []
  | String c s' =>
      if Ascii.eqb c (ascii_of_nat 10) then String c EmptyString :: readlines s'
      else match readlines s' with
           | [] => [String c EmptyString]
           | line :: lines => String c line :: lines
           end
  end.

(** [s.endswith(c)] for a single character [c]. *)
Fixpoint ends_with (c : ascii) (s : string) : bool :=
  match s with
  | EmptyString => false
  | String x EmptyString => Ascii.eqb x c
  | String _ s' => ends_with c s'
  end.

(** [s[:-1]] *)
Fixpoint but_last (s : string) : string :=
  match s with
  | EmptyString => EmptyString
  | String _ EmptyString => EmptyString
  | String x s' => String x (but_last s')
  end.

(** [s[1:-1]] *)
Definition slice_1_m1 (s : string) : string := but_last (str_drop 1 s).

End PyText.

(** A dictionary from strings to strings, in insertion order. *)
Fixpoint sdict_set (k v : string) (d : list (string * string)) : list (string * string) :=
  match d with
  | [] => [(k, v)]
  | (k', v') :: d' =>
      if String.eqb k k' then (k, v) :: d' else (k', v') :: sdict_set k v d'
  end.

Fixpoint sdict_get (k : string) (d : list (string * string)) : option string :=
  match d with
  | [] => None
  | (k', v) :: d' => if String.eqb k k' then Some v else sdict_get k d'
  end.

(** The exceptions of [get_lsb_infos]: those of the file functions, and the
    two that its own statements raise. *)
Inductive lsb_exn : Type :=
| FromFile (e : exn)
| ValueError
| KeyError (key : string).

Inductive lsb_result : Type :=
| LsbReturn (codename release : string)
| LsbRaise (e : lsb_exn).

(** [var] after [if var.startswith("DISTRIB_"): var = var[8:]] *)
Definition lsb_var (var : string) : string :=
  if String.prefix "DISTRIB_" var then str_drop 8 var else var.

(** [arg] after the two quotes around it are taken off. *)
Definition lsb_arg (arg : string) : string :=
  if String.prefix (String Json.dquote EmptyString) arg && PyText.ends_with Json.dquote arg
  then PyText.slice_1_m1 arg
  else arg.

(** The body of the loop for one line; [None] is the [ValueError] of an
    unpacking that does not find exactly two parts. *)
Definition lsb_line (lsb : list (string * string)) (line : string)
    : option (list (string * string)) :=
  if PyStr.contains "=" line then
    match PyText.split_on "=" (PyText.rstrip line) with
    | [var; arg] =>
        let var := lsb_var var in
        let arg := lsb_arg arg in
        if negb (String.eqb arg EmptyString) then Some (sdict_set var arg lsb) else Some lsb
    | _ => None
    end
  else Some lsb.

(** [for line in lsb_release: ...] *)
Fixpoint lsb_loop (lsb : list (string * string)) (lines : list string)
    : option (list (string * string)) :=
  match lines with
  | [] => Some lsb
  | line :: rest =>
      match lsb_line lsb line with
      | Some lsb' => lsb_loop lsb' rest
      | None => None
      end
  end.

Definition lsb_release_path : string := "/etc/lsb-release".

(** The [with] block: the file is read as a whole and then taken line by
    line. *)
Definition lsb_read : M (option (list (string * string))) :=
  with_open lsb_release_path mode_r (λ lsb_release,
    '(text, _) ← file_read lsb_release;
    mret (lsb_loop [] (PyText.readlines text))).

(** [get_lsb_infos()]: the handler covers the [with] block only; the
    [return] with its two look-ups comes after it. *)
Definition get_lsb_infos (st : state) : lsb_result * state :=
  match lsb_read st with
  | (Raise (OSError error), st') => (LsbReturn "not Manjaro" "0.0", snd (print error st'))
  | (Raise e, st') => (LsbRaise (FromFile e), st')
  | (Return None, st') => (LsbRaise ValueError, st')
  | (Return (Some lsb), st') =>
      match sdict_get "CODENAME" lsb with
      | None => (LsbRaise (KeyError "CODENAME"), st')
      | Some codename =>
          match sdict_get "RELEASE" lsb with
          | None => (LsbRaise (KeyError "RELEASE"), st')
          | Some release => (LsbReturn codename release, st')
          end
      end
  end.

(** How often the character [c] occurs in [s]. *)
Fixpoint count_char (c : ascii) (s : string) : nat :=
  match s with
  | EmptyString => 0
  | String x s' => (if Ascii.eqb x c then 1 else 0) + count_char c s'
  end.

(** The line [var=arg] with its line feed. *)
Definition lsb_entry_line (entry : string * string) : string :=
  fst entry +:+ String "=" (snd entry +:+ String (ascii_of_nat 10) EmptyString).

(** The file made of such lines. *)
Fixpoint lsb_text (entries : list (string * string)) : string :=
  match entries with
  | [] => EmptyString
  | entry :: rest => lsb_entry_line entry +:+ lsb_text rest
  end.

(** What the entries say about [key]: the value of the last entry for it
    whose value is not empty, names and values taken as the loop takes
    them (prefix and quotes off, trailing blanks off). *)
Fixpoint lsb_last (key : string) (entries : list (string * string)) : option string :=
  match entries with
  | [] => None
  | (var, arg) :: rest =>
      match lsb_last key rest with
      | Some v => Some v
      | None =>
          if String.eqb key (lsb_var var) &&
             negb (String.eqb (lsb_arg (PyText.rstrip arg)) EmptyString)
          then Some (lsb_arg (PyText.rstrip arg))
          else None
      end
  end.

(** An entry that makes one line of the form [var=arg]: neither part has
    an equals sign or a line feed. *)
Definition lsb_entry_ok (entry : string * string) : bool :=
  (count_char "=" (fst entry) =? 0) && (count_char "=" (snd entry) =? 0) &&
  (count_char (ascii_of_nat 10) (fst entry) =? 0) &&
  (count_char (ascii_of_nat 10) (snd entry) =? 0).

(** What one entry does to the dictionary. *)
Definition lsb_step (lsb : list (string * string)) (entry : string * string)
    : list (string * string) :=
  if negb (String.eqb (lsb_arg (PyText.rstrip (snd entry))) EmptyString)
  then sdict_set (lsb_var (fst entry)) (lsb_arg (PyText.rstrip (snd entry))) lsb
  else lsb.

(** The pair the final [return] makes of a dictionary. *)
Definition lsb_return (codename release : option string) : lsb_result :=
  match codename, release with
  | Some c, Some r => LsbReturn c r
  | None, _ => LsbRaise (KeyError "CODENAME")
  | Some _, None => LsbRaise (KeyError "RELEASE")
  end.

(** An lsb-release file as Manjaro ships it. *)
Definition lsb_sample : list (string * string) :=
  [ ("DISTRIB_ID", "ManjaroLinux");
    ("DISTRIB_RELEASE", "17.1.12");
    ("DISTRIB_CODENAME", "Hakoila");
    ("DISTRIB_DESCRIPTION",
       String Json.dquote ("Manjaro Linux" +:+ String Json.dquote EmptyString)) ].

Definition fs_lsb (text : string) : gmap string node :=
  {[ lsb_release_path := RegFile (Text text) ]}.

(** An i3 configuration that is not text. *)
Definition fs_i3_binary : gmap string node :=
  {[ Sample.i3_config := RegFile Undecodable ]}.

(** * Properties *)

(** ** Strings *)

Example replace_leftmost_first : PyStr.replace "aaa" "aa" "b" = "ba".
Proof. reflexivity. Qed.

Example replace_every_occurrence : PyStr.replace "en_US_x" "_" "-" = "en-US-x".
Proof. reflexivity. Qed.

Example replace_empty_old : PyStr.replace "ab" EmptyString "-" = "-a-b-".
Proof. reflexivity. Qed.

Example slice_short : PyStr.slice_to 2 "C" = "C" ∧ PyStr.slice_to 2 "en_US" = "en".
Proof. split; reflexivity. Qed.

Example contains_empty : PyStr.contains EmptyString EmptyString = true ∧ PyStr.contains "_" "en" = false.
Proof. split; reflexivity. Qed.

Lemma prefix_empty (s : string) : String.prefix EmptyString s = true.
Proof. destruct s; reflexivity. Qed.

Lemma prefix_tilde (c : ascii) (s : string) :
  String.prefix "~" (String c s) = Ascii.eqb c "~".
Proof.
  cbn [String.prefix]. rewrite prefix_empty.
  destruct (ascii_dec "~" c) as [<-|Hne]; [reflexivity|].
  symmetry. apply Ascii.eqb_neq. congruence.
Qed.

Lemma replace_tilde (home_dir path : string) :
  PyStr.replace path "~" home_dir = expand_tilde home_dir path.
Proof.
  unfold PyStr.replace.
  induction path as [|c p IH]; [reflexivity|].
  cbn [PyStr.replace_scan expand_tilde]. rewrite prefix_tilde.
  destruct (Ascii.eqb c "~"); cbn; now rewrite IH.
Qed.

Lemma contains_tilde_occurs (path : string) :
  PyStr.contains "~" path = true ↔ occurs "~"%char path.
Proof.
  induction path as [|c p IH]; cbn [PyStr.contains occurs].
  - split; [discriminate|tauto].
  - rewrite prefix_tilde.
    destruct (Ascii.eqb_spec c "~") as [->|Hne]; cbn [orb].
    + tauto.
    + rewrite IH. tauto.
Qed.

Lemma expand_tilde_id (home_dir path : string) :
  ¬ occurs "~"%char path → expand_tilde home_dir path = path.
Proof.
  induction path as [|c p IH]; cbn [expand_tilde occurs]; [reflexivity|].
  intros H. destruct (Ascii.eqb_spec c "~") as [->|_]; [tauto|].
  rewrite IH; [reflexivity|tauto].
Qed.

(** ** fix_path *)

(** C10: for every path, [fix_path] replaces every occurrence of the
    tilde, wherever it stands in the path and not only in front, by the
    home directory of the current user, and returns a path that contains
    no tilde unchanged. *)
Theorem fix_path_expands_every_tilde (env : environ) (path : string) :
  fix_path env path = expand_tilde (home env) path ∧
  (¬ occurs "~"%char path → fix_path env path = path).
Proof.
  assert (E : fix_path env path = expand_tilde (home env) path).
  { unfold fix_path. destruct (PyStr.contains "~" path) eqn:C.
    - apply replace_tilde.
    - symmetry. apply expand_tilde_id. rewrite <- contains_tilde_occurs. congruence. }
  split; [exact E|].
  intros H. rewrite E. now apply expand_tilde_id.
Qed.

(** C10 at two paths: one with a leading and an inner tilde, one without
    any. *)
Lemma fix_path_expands_every_tilde_witness :
  fix_path (Sample.env None) "~/a~b" = "/home/user/a/home/userb" ∧
  fix_path (Sample.env None) "/etc/lsb-release" = "/etc/lsb-release".
Proof.
  split.
  - rewrite (proj1 (fix_path_expands_every_tilde (Sample.env None) "~/a~b")). reflexivity.
  - apply (proj2 (fix_path_expands_every_tilde (Sample.env None) "/etc/lsb-release")).
    cbn. intros H. repeat (destruct H as [H|H]; [discriminate H|]). exact H.
Defined.

(** ** get_best_locale *)

(** C7: for every saved locale [s] whose catalogue exists, the resolver
    returns [s] unchanged, whatever the system locale and the default
    locale are. *)
Theorem get_best_locale_saved_wins (prefs : preferences) (env : environ)
    (fs : gmap string node) (s : string) :
  asset_exists prefs fs (Some s) = true →
  get_best_locale prefs env fs (Some s) = Return (Some s).
Proof.
  unfold asset_exists, get_best_locale. intros ->. reflexivity.
Qed.

(** C7 with [de] saved and installed, on a French system. *)
Lemma get_best_locale_saved_wins_witness :
  asset_exists Sample.prefs Sample.fs_de (Some "de") = true ∧
  get_best_locale Sample.prefs (Sample.env (Some "fr_FR")) Sample.fs_de (Some "de")
    = Return (Some "de").
Proof.
  split; [reflexivity|].
  apply get_best_locale_saved_wins. reflexivity.
Defined.

(** C1 as stated fails: with only the [en_US] catalogue installed, nothing
    saved and the system locale [en_US], the resolver returns [en-US],
    which has no catalogue and is not the default locale. *)
Lemma get_best_locale_hyphen_unchecked :
  get_best_locale Sample.prefs (Sample.env (Some "en_US")) Sample.fs_en_US None
    = Return (Some "en-US") ∧
  asset_exists Sample.prefs Sample.fs_en_US (Some "en-US") = false ∧
  Some "en-US" ≠ Some (default_locale Sample.prefs).
Proof.
  split; [vm_compute; reflexivity|].
  split; [vm_compute; reflexivity|].
  discriminate.
Qed.

(** C1, amended: with a known system locale the resolver returns, and
    whatever it returns has a catalogue, or is the default locale, or is
    the hyphen form of an underscore-style system locale whose catalogue
    exists under the underscore name (the hyphen form itself is not
    looked up). *)
Theorem get_best_locale_result_asset (prefs : preferences) (env : environ)
    (fs : gmap string node) (saved : option string) :
  (sys_locale env ≠ None → ∃ r, get_best_locale prefs env fs saved = Return r) ∧
  ∀ r, get_best_locale prefs env fs saved = Return r →
    asset_exists prefs fs r = true ∨
    r = Some (default_locale prefs) ∨
    ∃ l, sys_locale env = Some l ∧ PyStr.contains "_" l = true ∧
         r = Some (PyStr.replace l "_" "-") ∧
         asset_exists prefs fs (Some l) = true.
Proof.
  unfold get_best_locale, asset_exists. split.
  - intros Hsys.
    destruct (isfile fs (mo_path prefs saved)); [eauto|].
    destruct (decide (saved = Some (default_locale prefs))); [eauto|].
    destruct (sys_locale env) as [l|]; [|contradiction].
    repeat case_match; eauto.
  - intros r.
    destruct (isfile fs (mo_path prefs saved)) eqn:Hsaved.
    { intros [= <-]. now left. }
    destruct (decide (saved = Some (default_locale prefs))) as [_|_].
    { intros [= <-]. right. now left. }
    destruct (isfile fs (mo_path prefs (sys_locale env))) eqn:Hsys.
    + destruct (sys_locale env) as [l|] eqn:El; [|discriminate].
      destruct (PyStr.contains "_" l) eqn:Hus; intros [= <-].
      * right. right. exists l. auto.
      * now left.
    + destruct (sys_locale env) as [l|] eqn:El; [|discriminate].
      destruct (isfile fs (mo_path prefs (Some (PyStr.slice_to 2 l)))) eqn:H2;
        intros [= <-]; auto.
Qed.

(** C1, amended, at the input of the counterexample: the result [en-US]
    falls under the third case. *)
Lemma get_best_locale_result_asset_witness :
  ∃ l, sys_locale (Sample.env (Some "en_US")) = Some l ∧
       PyStr.contains "_" l = true ∧
       Some "en-US" = Some (PyStr.replace l "_" "-") ∧
       asset_exists Sample.prefs Sample.fs_en_US (Some l) = true.
Proof.
  destruct (proj2 (get_best_locale_result_asset Sample.prefs (Sample.env (Some "en_US"))
                     Sample.fs_en_US None) (Some "en-US")) as [H|[H|H]].
  - vm_compute. reflexivity.
  - vm_compute in H. discriminate H.
  - discriminate H.
  - exact H.
Defined.

(** C2, what the code does instead: when the system locale is unknown
    ([locale.getdefaultlocale()[0]] is [None]) and neither of the first two
    steps applies, the resolver raises [TypeError]; it does not return the
    default locale. *)
Theorem get_best_locale_unknown_sys_locale_raises (prefs : preferences)
    (env : environ) (fs : gmap string node) (saved : option string) :
  sys_locale env = None →
  asset_exists prefs fs saved = false →
  saved ≠ Some (default_locale prefs) →
  get_best_locale prefs env fs saved = Raise TypeError.
Proof.
  unfold get_best_locale, asset_exists. intros -> -> Hne.
  destruct (decide (saved = Some (default_locale prefs))) as [E|_]; [contradiction|].
  destruct (isfile fs (mo_path prefs None)); reflexivity.
Qed.

(** C2 on a fresh installation: nothing saved, no catalogue, no system
    locale. *)
Lemma get_best_locale_unknown_sys_locale_raises_witness :
  get_best_locale Sample.prefs (Sample.env None) ∅ None = Raise TypeError.
Proof.
  apply get_best_locale_unknown_sys_locale_raises.
  - reflexivity.
  - reflexivity.
  - discriminate.
Defined.

(** With an empty system locale the two system-locale steps run on the
    empty identifier; the default locale is returned when no catalogue
    answers to it. *)
Lemma get_best_locale_empty_sys_locale (prefs : preferences) (env : environ)
    (fs : gmap string node) (saved : option string) :
  sys_locale env = Some EmptyString →
  asset_exists prefs fs saved = false →
  saved ≠ Some (default_locale prefs) →
  get_best_locale prefs env fs saved =
    Return (Some (if asset_exists prefs fs (Some EmptyString) then EmptyString else default_locale prefs)).
Proof.
  unfold get_best_locale, asset_exists. intros -> -> Hne.
  destruct (decide (saved = Some (default_locale prefs))) as [E|_]; [contradiction|].
  cbn. destruct (isfile fs (mo_path prefs (Some EmptyString))); reflexivity.
Qed.

(** ** Framing: what a computation leaves alone *)

Create HintDb frames.

Lemma frames_ret {A : Type} (a : A) : frames (mret a).
Proof. intros st r st' [= <- <-]. auto. Qed.

Lemma frames_raise {A : Type} (e : exn) : frames (@raise A e).
Proof. intros st r st' [= <- <-]. auto. Qed.

Lemma frames_bind {A B : Type} (m : M A) (k : A → M B) :
  frames m → (∀ a, frames (k a)) → frames (m ≫= k).
Proof.
  intros Hm Hk st r st'. unfold mbind, M_bind.
  destruct (m st) as [[a|e] st1] eqn:E; intros H.
  - destruct (Hm _ _ _ E) as [E1 E2]. destruct (Hk a _ _ _ H) as [E3 E4].
    split; congruence.
  - injection H as <- <-. eapply Hm, E.
Qed.

Lemma frames_fmap {A B : Type} (f : A → B) (m : M A) :
  frames m → frames (f <$> m).
Proof.
  intros Hm. unfold fmap, M_fmap. apply frames_bind; [exact Hm|].
  intros a. apply frames_ret.
Qed.

Lemma frames_syscall : frames syscall.
Proof.
  intros st r st'. unfold syscall.
  destruct (faults st) as [|[e|] rest]; intros [= <- <-]; auto.
Qed.

Lemma frames_get_files : frames get_files.
Proof. intros st r st' [= <- <-]. auto. Qed.

Lemma frames_set_files (fs : gmap string node) : frames (set_files fs).
Proof. intros st r st' [= <- <-]. auto. Qed.

Lemma frames_os_path_isfile (p : string) : frames (os_path_isfile p).
Proof. intros st r st' [= <- <-]. auto. Qed.

#[export] Hint Resolve frames_ret frames_raise frames_bind frames_fmap frames_syscall
  frames_get_files frames_set_files frames_os_path_isfile : frames.

Ltac frames_cases :=
  repeat first
    [ progress auto with frames
    | apply frames_bind; [|intros ?]
    | match goal with
      | |- frames (match ?x with _ => _ end) => destruct x
      | |- frames (let '(_, _) := ?x in _) => destruct x
      end ].

Lemma frames_os_symlink (src dst : string) : frames (os_symlink src dst).
Proof. unfold os_symlink. frames_cases. Qed.

Lemma frames_os_unlink (p : string) : frames (os_unlink p).
Proof. unfold os_unlink. frames_cases. Qed.

Lemma frames_open (p : string) (mode : open_mode) : frames (open_ p mode).
Proof. unfold open_. frames_cases. Qed.

Lemma frames_file_read (f : file) : frames (file_read f).
Proof. unfold file_read. frames_cases. Qed.

Lemma frames_file_seek (f : file) (n : nat) : frames (file_seek f n).
Proof. unfold file_seek. frames_cases. Qed.

Lemma frames_file_write (f : file) (s : string) : frames (file_write f s).
Proof. unfold file_write. frames_cases. Qed.

Lemma frames_file_truncate (f : file) : frames (file_truncate f).
Proof. unfold file_truncate. frames_cases. Qed.

Lemma frames_closing {A : Type} (f : file) (body : M A) :
  frames body → frames (closing f body).
Proof.
  intros Hb st r st'. unfold closing, file_close.
  destruct (body st) as [r1 st1] eqn:E.
  destruct (syscall st1) as [[[]|e] st2] eqn:E2; intros [= <- <-].
  all: destruct (Hb _ _ _ E) as [E3 E4]; destruct (frames_syscall _ _ _ E2) as [E5 E6];
    split; congruence.
Qed.

Lemma frames_with_open {A : Type} (p : string) (mode : open_mode) (body : file → M A) :
  (∀ f, frames (body f)) → frames (with_open p mode body).
Proof.
  intros Hb. unfold with_open. apply frames_bind; [apply frames_open|].
  intros f. apply frames_closing, Hb.
Qed.

#[export] Hint Resolve frames_os_symlink frames_os_unlink frames_open frames_file_read
  frames_file_seek frames_file_write frames_file_truncate frames_closing
  frames_with_open : frames.

(** ** set_autostart *)






Ltac unfold_M :=
  unfold with_open, closing, open_, file_read, file_write, file_truncate, file_seek,
    file_close, os_symlink, os_unlink, os_path_isfile, syscall, get_files, set_files,
    set_self_autostart, print, raise, try_except_OSError,
    fmap, M_fmap, mbind, M_bind, mret, M_ret in *.

Lemma str_drop_0 (s : string) : str_drop 0 s = s.
Proof.
  unfold str_drop. rewrite Nat.sub_0_r.
  induction s as [|c s IH]; [reflexivity|]. cbn. now rewrite IH.
Qed.

Lemma read_whole_outcome (p : string) (st : state) :
  let r := fst (with_open p mode_r (λ fil, fst <$> file_read fil) st) in
  (∃ body, holds_text (files st) p body ∧ r = Return body) ∨
  (∃ e, r = Raise (OSError e)) ∨
  (holds_undecodable (files st) p ∧ r = Raise UnicodeDecodeError).
Proof.
  unfold holds_text, holds_undecodable. unfold_M. cbn.
  repeat (case_match; simplify_eq/=; eauto 10).
  all: rewrite str_drop_0; left; eauto.
Qed.

Lemma holds_text_isfile (fs : gmap string node) (p body : string) :
  holds_text fs p body → isfile fs p = true.
Proof. intros (q & Hq & Hn). unfold isfile. now rewrite Hq, Hn. Qed.

Lemma holds_undecodable_isfile (fs : gmap string node) (p : string) :
  holds_undecodable fs p → isfile fs p = true.
Proof. intros (q & Hq & Hn). unfold isfile. now rewrite Hq, Hn. Qed.

Lemma read_whole_text (p body : string) (st : state) :
  faults st = [] → holds_text (files st) p body →
  with_open p mode_r (λ fil, fst <$> file_read fil) st = (Return body, st).
Proof.
  intros Hq (q & Hr & Hn). unfold_M. rewrite Hq. cbn. rewrite Hr, Hn. cbn.
  rewrite Hq. cbn. rewrite Hn. cbn. rewrite Hq. now rewrite str_drop_0.
Qed.

Lemma open_r_absent (p : string) (st : state) :
  isfile (files st) p = false →
  ∃ e st', open_ p mode_r st = (Raise (OSError e), st').
Proof.
  unfold isfile. intros H. unfold_M. cbn.
  repeat (case_match; simplify_eq/=; eauto).
Qed.

Lemma read_whole_absent {A : Type} (p : string) (body : file → M A) (st : state) :
  isfile (files st) p = false →
  ∃ e st', with_open p mode_r body st = (Raise (OSError e), st').
Proof.
  intros H. destruct (open_r_absent p st H) as (e & st' & E).
  exists e, st'. unfold with_open, mbind, M_bind. now rewrite E.
Qed.

(** ** get_page *)

Lemma get_page_eq (prefs : preferences) (env : environ)
    (saved : option string) (name : string) (st : state) :
  get_page prefs env saved name st =
  try_except_OSError
    (with_open (if isfile (files st) (page_path prefs saved name)
                then page_path prefs saved name
                else page_path prefs (Some (default_locale prefs)) name)
       mode_r (λ fil, fst <$> file_read fil))
    (λ _, mret (gettext env cant_load_page)) st.
Proof.
  unfold get_page, mbind, M_bind, os_path_isfile.
  destruct (isfile (files st) (page_path prefs saved name)); reflexivity.
Qed.

Lemma append_assoc (a b c : string) : (a +:+ b) +:+ c = a +:+ (b +:+ c).
Proof.
  induction a as [|x a IH]; [reflexivity|].
  change (String x ((a +:+ b) +:+ c) = String x (a +:+ (b +:+ c))).
  now rewrite IH.
Qed.

Lemma page_path_layout (prefs : preferences) (locale name : string) :
  page_path prefs (Some locale) name = page_file (pages_root prefs) locale name.
Proof.
  unfold page_path, page_file, pages_root. rewrite append_assoc. reflexivity.
Qed.

Lemma read_whole_fails (p : string) (st : state) :
  fails_within 3 (faults st) = true →
  ∃ e st', with_open p mode_r (λ fil, fst <$> file_read fil) st = (Raise (OSError e), st').
Proof.
  destruct st as [fs fl out au]. cbn [faults].
  destruct fl as [|[e1|] [|[e2|] [|[e3|] fl]]]; try discriminate; intros _.
  all: unfold_M; cbn; repeat case_match; simplify_eq/=; eauto.
Qed.

Lemma read_whole_quiet_text (p body : string) (st : state) :
  fails_within 3 (faults st) = false → holds_text (files st) p body →
  with_open p mode_r (λ fil, fst <$> file_read fil) st
  = (Return body,
     mkState (files st) (drop 3 (faults st)) (stdout st) (self_autostart st)).
Proof.
  destruct st as [fs fl out au]. cbn [faults files stdout self_autostart].
  intros Hq (q & Hr & Hn).
  destruct fl as [|[e1|] [|[e2|] [|[e3|] fl]]]; try discriminate.
  all: unfold_M; cbn; rewrite Hr, Hn; cbn; rewrite Hn; cbn; now rewrite str_drop_0.
Qed.

Lemma read_whole_quiet_undecodable (p : string) (st : state) :
  fails_within 3 (faults st) = false → holds_undecodable (files st) p →
  fst (with_open p mode_r (λ fil, fst <$> file_read fil) st) = Raise UnicodeDecodeError.
Proof.
  destruct st as [fs fl out au]. cbn [faults files].
  intros Hq (q & Hr & Hn).
  destruct fl as [|[e1|] [|[e2|] [|[e3|] fl]]]; try discriminate.
  all: unfold_M; cbn; rewrite Hr, Hn; cbn; rewrite Hn; reflexivity.
Qed.

(** C4, amended: for every locale, default locale and page, with the
    files laid out as [<pages-root>/<locale>/<page>]: [get_page] reads the
    page of the requested locale when that is a file, and the page of the
    default locale when it is not; it makes one attempt on the file it
    chose.  It returns the text of that file when the file is text and
    none of the three calls (open, read, close) fails; when neither page
    is a file it returns the translated message ["Can't load page."], as
    a value and not as an error.  A page that is present is not always
    returned: when one of the three calls fails the message comes back
    and the other locale's page is not tried, and when the chosen file
    holds bytes that are not text the call raises [UnicodeDecodeError]. *)
Theorem get_page_fallback (prefs : preferences) (env : environ)
    (locale name : string) (st : state) :
  let own := page_file (pages_root prefs) locale name in
  let fallback := page_file (pages_root prefs) (default_locale prefs) name in
  let chosen := if isfile (files st) own then own else fallback in
  let st_end :=
    mkState (files st) (drop 3 (faults st)) (stdout st) (self_autostart st) in
  let run := get_page prefs env (Some locale) name st in
  (∀ body, fails_within 3 (faults st) = false → holds_text (files st) own body →
     run = (Return body, st_end)) ∧
  (∀ body, fails_within 3 (faults st) = false → isfile (files st) own = false →
     holds_text (files st) fallback body → run = (Return body, st_end)) ∧
  (isfile (files st) own = false → isfile (files st) fallback = false →
     fst run = Return (gettext env cant_load_page)) ∧
  (fails_within 3 (faults st) = true →
     fst run = Return (gettext env cant_load_page)) ∧
  (fails_within 3 (faults st) = false → holds_undecodable (files st) chosen →
     fst run = Raise UnicodeDecodeError).
Proof.
  intros own fallback chosen st_end run. subst run.
  rewrite get_page_eq, !page_path_layout. fold own fallback. fold chosen.
  unfold try_except_OSError. repeat split.
  - intros body Hq Hb. subst chosen. rewrite (holds_text_isfile _ _ _ Hb).
    now rewrite (read_whole_quiet_text _ _ _ Hq Hb).
  - intros body Hq Hown Hb. subst chosen. rewrite Hown.
    now rewrite (read_whole_quiet_text _ _ _ Hq Hb).
  - intros Hown Hfb. subst chosen. rewrite Hown.
    destruct (read_whole_absent fallback (λ fil, fst <$> file_read fil) st Hfb)
      as (e & st' & E).
    now rewrite E.
  - intros Hf. destruct (read_whole_fails chosen st Hf) as (e & st' & E).
    now rewrite E.
  - intros Hq Hu. pose proof (read_whole_quiet_undecodable chosen st Hq Hu) as E.
    destruct (with_open chosen mode_r (λ fil, fst <$> file_read fil) st) as [r st'].
    cbn [fst] in E. now subst r.
Qed.

(** C4, amended, with German and English pages: the German reader gets
    the German page, the French reader the English one, a page that no
    locale has gives the message; the German page that cannot be opened
    gives the message although the English one is there, and the German
    page that is not text raises. *)
Lemma get_page_fallback_witness :
  get_page Sample.prefs (Sample.env None) (Some "de") "about"
      (Sample.start Sample.fs_pages_de)
    = (Return "Ueber Manjaro", Sample.start Sample.fs_pages_de) ∧
  get_page Sample.prefs (Sample.env None) (Some "fr") "about"
      (Sample.start Sample.fs_pages_de)
    = (Return "About text", Sample.start Sample.fs_pages_de) ∧
  fst (get_page Sample.prefs (Sample.env None) (Some "fr") "links"
         (Sample.start Sample.fs_pages_de))
    = Return "Can't load page." ∧
  fst (get_page Sample.prefs (Sample.env None) (Some "de") "about"
         (Sample.start_with Sample.fs_pages_de [Some (EnvFault 13)] false))
    = Return "Can't load page." ∧
  fst (get_page Sample.prefs (Sample.env None) (Some "de") "broken"
         (Sample.start Sample.fs_pages_de))
    = Raise UnicodeDecodeError.
Proof.
  split; [|split; [|split; [|split]]].
  - destruct (get_page_fallback Sample.prefs (Sample.env None) "de" "about"
                (Sample.start Sample.fs_pages_de)) as (H & _).
    apply H; [reflexivity|].
    eexists. split; vm_compute; reflexivity.
  - destruct (get_page_fallback Sample.prefs (Sample.env None) "fr" "about"
                (Sample.start Sample.fs_pages_de)) as (_ & H & _).
    apply H; [reflexivity|vm_compute; reflexivity|].
    eexists. split; vm_compute; reflexivity.
  - destruct (get_page_fallback Sample.prefs (Sample.env None) "fr" "links"
                (Sample.start Sample.fs_pages_de)) as (_ & _ & H & _).
    apply H; vm_compute; reflexivity.
  - destruct (get_page_fallback Sample.prefs (Sample.env None) "de" "about"
                (Sample.start_with Sample.fs_pages_de [Some (EnvFault 13)] false))
      as (_ & _ & _ & H & _).
    apply H. reflexivity.
  - destruct (get_page_fallback Sample.prefs (Sample.env None) "de" "broken"
                (Sample.start Sample.fs_pages_de)) as (_ & _ & _ & _ & H).
    apply H; [reflexivity|].
    eexists. split; vm_compute; reflexivity.
Defined.

(** C4 as stated fails: a page of the requested locale that is present is
    not always the result, and the page of the default locale is not
    tried in its place.  The German page [broken] is a file but not text:
    the call raises, although the English [broken] is readable.  The
    German page [about] is a readable text, but the environment refuses
    to open it: the message comes back, although the English [about] is
    readable. *)
Lemma get_page_present_not_returned :
  (holds_undecodable Sample.fs_pages_de
     (page_file (pages_root Sample.prefs) "de" "broken") ∧
   holds_text Sample.fs_pages_de
     (page_file (pages_root Sample.prefs) "en" "broken") "Mended" ∧
   fst (get_page Sample.prefs (Sample.env None) (Some "de") "broken"
          (Sample.start Sample.fs_pages_de)) = Raise UnicodeDecodeError) ∧
  (holds_text Sample.fs_pages_de
     (page_file (pages_root Sample.prefs) "de" "about") "Ueber Manjaro" ∧
   holds_text Sample.fs_pages_de
     (page_file (pages_root Sample.prefs) "en" "about") "About text" ∧
   fst (get_page Sample.prefs (Sample.env None) (Some "de") "about"
          (Sample.start_with Sample.fs_pages_de [Some (EnvFault 13)] false))
   = Return "Can't load page.").
Proof.
  split; (split; [|split]); try (vm_compute; reflexivity).
  all: eexists; split; vm_compute; reflexivity.
Qed.

(** C8 as stated fails: a page file whose bytes are not text makes
    [fil.read()] raise [UnicodeDecodeError], which [except OSError] lets
    through to the caller. *)
Lemma get_page_undecodable_raises :
  holds_undecodable Sample.fs_pages
    (page_path Sample.prefs (Some "en") "broken") ∧
  fst (get_page Sample.prefs (Sample.env None) (Some "en") "broken"
         (Sample.start Sample.fs_pages)) = Raise UnicodeDecodeError.
Proof.
  split; [|vm_compute; reflexivity].
  eexists. split; vm_compute; reflexivity.
Qed.

(** C8, amended: for every locale, default locale, page, file system and
    schedule of failures, [get_page] never raises an [OSError] to its
    caller: an [OSError] of opening the chosen file, of reading it or of
    closing it, also on a file that exists, ends in the message
    ["Can't load page."].  Unless the file it chose holds bytes that are
    not text, [get_page] returns a string: the text of that file, or the
    message. *)
Theorem get_page_outcome (prefs : preferences) (env : environ)
    (saved : option string) (name : string) (st : state) :
  let own := page_path prefs saved name in
  let filename :=
    if isfile (files st) own then own
    else page_path prefs (Some (default_locale prefs)) name in
  let r := fst (get_page prefs env saved name st) in
  (∀ e, r ≠ Raise (OSError e)) ∧
  (∀ e st1,
     open_ filename mode_r st = (Raise (OSError e), st1) →
     r = Return (gettext env cant_load_page)) ∧
  (∀ fil st1 e st2,
     open_ filename mode_r st = (Return fil, st1) →
     file_read fil st1 = (Raise (OSError e), st2) →
     r = Return (gettext env cant_load_page)) ∧
  (∀ fil st1 x st2 e st3,
     open_ filename mode_r st = (Return fil, st1) →
     file_read fil st1 = (x, st2) →
     file_close fil st2 = (Raise (OSError e), st3) →
     r = Return (gettext env cant_load_page)) ∧
  (¬ holds_undecodable (files st) filename →
   (∃ body, holds_text (files st) filename body ∧ r = Return body) ∨
   r = Return (gettext env cant_load_page)).
Proof.
  intros own filename r.
  assert (D : (∃ body, holds_text (files st) filename body ∧ r = Return body) ∨
              r = Return (gettext env cant_load_page) ∨
              (holds_undecodable (files st) filename ∧ r = Raise UnicodeDecodeError)).
  { subst r. rewrite get_page_eq. fold own filename.
    pose proof (read_whole_outcome filename st) as H. cbv zeta in H.
    unfold try_except_OSError.
    destruct (with_open filename mode_r (λ fil, fst <$> file_read fil) st) as [r st'].
    cbn [fst] in H.
    destruct H as [(body & Hb & ->)|[(e & ->)|(Hu & ->)]]; cbn; eauto. }
  assert (E : r = fst (try_except_OSError
                         (with_open filename mode_r (λ fil, fst <$> file_read fil))
                         (λ _, mret (gettext env cant_load_page)) st)).
  { subst r. now rewrite get_page_eq. }
  split; [|split; [|split; [|split]]].
  - intros e. destruct D as [(body & _ & ->)|[->|(_ & ->)]]; discriminate.
  - intros e st1 Ho. rewrite E.
    unfold try_except_OSError, with_open, mbind, M_bind. now rewrite Ho.
  - intros fil st1 e st2 Ho Hr. rewrite E.
    unfold try_except_OSError, with_open, closing, fmap, M_fmap, mbind, M_bind.
    rewrite Ho, Hr. unfold file_close, syscall.
    destruct (faults st2) as [|[e'|] fl]; reflexivity.
  - intros fil st1 x st2 e st3 Ho Hr Hc. rewrite E.
    unfold try_except_OSError, with_open, closing, fmap, M_fmap, mbind, M_bind.
    rewrite Ho, Hr. destruct x as [[text fil']|e']; cbn; now rewrite Hc.
  - intros Hn. destruct D as [D|[D|(Hu & _)]]; [now left|now right|contradiction].
Qed.

(** C8, amended, on a page that exists and is text: whether the
    environment fails the opening, the reading or the closing, the
    message comes back. *)
Lemma get_page_outcome_witness :
  fst (get_page Sample.prefs (Sample.env None) (Some "en") "about"
         (Sample.start_with Sample.fs_pages [Some (EnvFault 13)] false))
    = Return "Can't load page." ∧
  fst (get_page Sample.prefs (Sample.env None) (Some "en") "about"
         (Sample.start_with Sample.fs_pages [None; Some (EnvFault 5)] false))
    = Return "Can't load page." ∧
  fst (get_page Sample.prefs (Sample.env None) (Some "en") "about"
         (Sample.start_with Sample.fs_pages [None; None; Some (EnvFault 28)] false))
    = Return "Can't load page.".
Proof.
  split; [|split].
  - destruct (get_page_outcome Sample.prefs (Sample.env None) (Some "en") "about"
                (Sample.start_with Sample.fs_pages [Some (EnvFault 13)] false))
      as (_ & H & _).
    eapply H. reflexivity.
  - destruct (get_page_outcome Sample.prefs (Sample.env None) (Some "en") "about"
                (Sample.start_with Sample.fs_pages [None; Some (EnvFault 5)] false))
      as (_ & _ & H & _).
    eapply H; reflexivity.
  - destruct (get_page_outcome Sample.prefs (Sample.env None) (Some "en") "about"
                (Sample.start_with Sample.fs_pages [None; None; Some (EnvFault 28)] false))
      as (_ & _ & _ & H & _).
    eapply H; reflexivity.
Defined.

(** ** The save record *)

Lemma read_json_eq (env : environ) (path : string) (st : state) :
  read_json env path st =
  match with_open (fix_path env path) mode_r json_load st with
  | (Raise (OSError _), st') => (Return JNull, st')
  | r => r
  end.
Proof.
  unfold read_json, try_except_OSError.
  destruct (with_open (fix_path env path) mode_r (λ fil, json_load fil) st)
    as [[v|[]] st']; reflexivity.
Qed.

(** C6, amended: when the save file is absent, or opening, reading or
    closing it raises an [OSError], [read_json] returns [None] and start-up
    takes [{"locale": None}] as the save record, without raising. *)
Theorem init_save_absent_or_unreadable (prefs : preferences) (env : environ)
    (st : state) :
  let path := fix_path env (save_path prefs) in
  isfile (files st) path = false ∨
  (∃ e st1, with_open path mode_r json_load st = (Raise (OSError e), st1)) →
  ∃ st', read_json env (save_path prefs) st = (Return JNull, st') ∧
         init_save prefs env st = (Return default_save, st').
Proof.
  intros path H.
  assert (∃ e st1, with_open path mode_r json_load st = (Raise (OSError e), st1))
    as (e & st1 & E).
  { destruct H as [H|H]; [|exact H]. now apply read_whole_absent. }
  exists st1.
  assert (R : read_json env (save_path prefs) st = (Return JNull, st1)).
  { rewrite read_json_eq. fold path. now rewrite E. }
  split; [exact R|].
  unfold init_save, mbind, M_bind. now rewrite R.
Qed.

(** C6, amended, on a first start: there is no save file yet. *)
Lemma init_save_absent_or_unreadable_witness :
  ∃ st', read_json (Sample.env None) (save_path Sample.prefs) (Sample.start ∅)
           = (Return JNull, st') ∧
         init_save Sample.prefs (Sample.env None) (Sample.start ∅)
           = (Return default_save, st').
Proof.
  apply (init_save_absent_or_unreadable Sample.prefs (Sample.env None) (Sample.start ∅)).
  left. vm_compute. reflexivity.
Defined.

(** C6 as stated fails: a save file that holds the malformed text [{]
    makes [json.load] raise [JSONDecodeError], which [read_json] does not
    catch, so start-up raises instead of taking the default record. *)
Lemma init_save_malformed_raises :
  holds_text Sample.fs_bad_save (fix_path (Sample.env None) (save_path Sample.prefs)) "{" ∧
  Json.loads "{" = Json.Malformed ∧
  fst (init_save Sample.prefs (Sample.env None) (Sample.start Sample.fs_bad_save))
    = Raise JSONDecodeError.
Proof.
  split; [|split].
  - eexists. split; vm_compute; reflexivity.
  - vm_compute. reflexivity.
  - vm_compute. reflexivity.
Qed.

(** ** write_json then read_json *)

Lemma syscall_quiet (st : state) : faults st = [] → syscall st = (Return tt, st).
Proof. unfold syscall. now intros ->. Qed.

Lemma follow_not_link (fs : gmap string node) (hops : nat) (p q : string) :
  follow fs hops p = Some q → ∀ t, fs !! q ≠ Some (SymLink t).
Proof.
  revert p. induction hops as [|h IH]; intros p; cbn [follow].
  - destruct (fs !! p) as [[| |]|] eqn:E; intros [= <-] t; congruence.
  - destruct (fs !! p) as [[| |]|] eqn:E; try (intros [= <-] t; congruence).
    apply IH.
Qed.

Lemma follow_insert_target (fs : gmap string node) (hops : nat) (p q : string)
    (c : contents) :
  follow fs hops p = Some q → follow (<[q := RegFile c]> fs) hops p = Some q.
Proof.
  revert p. induction hops as [|h IH]; intros p; cbn [follow].
  - destruct (decide (q = p)) as [->|Hne].
    + rewrite lookup_insert_eq. destruct (fs !! p) as [[| |]|]; congruence.
    + rewrite lookup_insert_ne by exact Hne. trivial.
  - destruct (decide (q = p)) as [->|Hne].
    + rewrite lookup_insert_eq. trivial.
    + rewrite lookup_insert_ne by exact Hne.
      destruct (fs !! p) as [[| |]|]; auto.
Qed.

(** ** The json module on small texts *)

Example loads_empty_text : Json.loads EmptyString = Json.Malformed.
Proof. reflexivity. Qed.

Example loads_open_brace : Json.loads "{" = Json.Malformed.
Proof. reflexivity. Qed.

Example loads_trailing_comma : Json.loads "[1,]" = Json.Malformed.
Proof. reflexivity. Qed.

Example loads_list : Json.loads " [1, -2 , null]" = Json.Decoded (JArr [JInt 1; JInt (-2); JNull]).
Proof. reflexivity. Qed.

Example loads_float : Json.loads "1.5" = Json.Unmodelled.
Proof. reflexivity. Qed.

Example loads_default_save : Json.loads (Json.dumps default_save) = Json.Decoded default_save.
Proof. reflexivity. Qed.

Example dumps_default_save :
  Json.dumps default_save
  = "{" +:+ String Json.dquote "locale" +:+ String Json.dquote ": null}".
Proof. reflexivity. Qed.

(** ** The save record through json.dump and json.load *)

Lemma scanstring_escape_char (c : ascii) (t : string) :
  Json.scanstring (Json.escape_char c +:+ t) = Json.pmap (String c) (Json.scanstring t).
Proof.
  destruct c as [[] [] [] [] [] [] [] []]; reflexivity.
Qed.

Lemma scanstring_escape (s rest : string) :
  Json.scanstring (Json.escape s +:+ String Json.dquote rest) = Json.POk s rest.
Proof.
  induction s as [|c s IH]; [reflexivity|].
  cbn [Json.escape]. rewrite append_assoc, scanstring_escape_char, IH. reflexivity.
Qed.

Lemma encode_string_app (s rest : string) :
  Json.encode_string s +:+ rest = String Json.dquote (Json.escape s +:+ String Json.dquote rest).
Proof.
  unfold Json.encode_string.
  change (String Json.dquote (Json.escape s +:+ String Json.dquote EmptyString) +:+ rest)
    with (String Json.dquote ((Json.escape s +:+ String Json.dquote EmptyString) +:+ rest)).
  now rewrite append_assoc.
Qed.

Lemma after_same (c : ascii) (rest : string) : Json.after c (String c rest) = Some rest.
Proof. cbn [Json.after]. now rewrite Ascii.eqb_refl. Qed.

Lemma skip_ws_encode_string (s rest : string) :
  Json.skip_ws (Json.encode_string s +:+ rest) = Json.encode_string s +:+ rest.
Proof. rewrite encode_string_app. reflexivity. Qed.

Lemma value_string (f : nat) (s rest : string) :
  Json.value (S f) (Json.encode_string s +:+ rest) = Json.POk (JStr s) rest.
Proof.
  rewrite encode_string_app. cbn [Json.value].
  rewrite Ascii.eqb_refl, scanstring_escape. reflexivity.
Qed.

Lemma members_one_string (f : nat) (k v rest : string) :
  Json.members (S (S f)) []
    (Json.encode_string k +:+ String ":" (String " " (Json.encode_string v +:+ String "}" rest)))
  = Json.POk (JObj [(k, JStr v)]) rest.
Proof.
  rewrite encode_string_app. cbn [Json.members].
  rewrite after_same, scanstring_escape.
  change (Json.skip_ws (String ":" (String " " (Json.encode_string v +:+ String "}" rest))))
    with (String ":" (String " " (Json.encode_string v +:+ String "}" rest))).
  rewrite after_same.
  change (Json.skip_ws (String " " (Json.encode_string v +:+ String "}" rest)))
    with (Json.skip_ws (Json.encode_string v +:+ String "}" rest)).
  rewrite skip_ws_encode_string, value_string.
  change (Json.skip_ws (String "}" rest)) with (String "}" rest).
  rewrite after_same. reflexivity.
Qed.

Lemma loads_dumps_locale (l : string) :
  Json.loads (Json.dumps (save_record l)) = Json.Decoded (save_record l).
Proof.
  unfold Json.loads.
  unfold save_record.
  change (Json.dumps (JObj [("locale", JStr l)]))
    with (String "{" (Json.encode_string "locale" +:+
            String ":" (String " " (Json.encode_string l +:+ String "}" EmptyString)))).
  set (rest := Json.encode_string "locale" +:+ _).
  replace (2 * String.length (String "{" rest) + 2)
    with (S (S (S (S (2 * String.length rest))))) by (cbn [String.length]; lia).
  generalize (2 * String.length rest). intros n.
  change (Json.skip_ws (String "{" rest)) with (String "{" rest).
  cbn [Json.value].
  replace (Ascii.eqb "{" Json.dquote) with false by reflexivity.
  rewrite Ascii.eqb_refl.
  subst rest. rewrite skip_ws_encode_string.
  replace (Json.after "}" (Json.encode_string "locale" +:+ String ":" (String " "
             (Json.encode_string l +:+ String "}" EmptyString)))) with (@None string)
    by (rewrite encode_string_app; reflexivity).
  rewrite members_one_string. reflexivity.
Qed.

Lemma str_drop_empty (n : nat) : str_drop n EmptyString = EmptyString.
Proof. unfold str_drop. destruct n; reflexivity. Qed.

Lemma append_empty_r (s : string) : s +:+ EmptyString = s.
Proof.
  induction s as [|c s IH]; [reflexivity|].
  change (String c (s +:+ EmptyString) = String c s). now rewrite IH.
Qed.

(** C9: writing a save record whose [locale] is ["de"] (or any other
    string [l]) with [write_json] and reading the file back with
    [read_json] gives a record whose [locale] is that same string,
    provided the environment lets the calls through and the path does not
    lead to a directory. *)
Theorem write_json_read_json_locale (env : environ) (path : string) (st : state)
    (l : string) :
  faults st = [] →
  (∃ q, realpath (files st) (fix_path env path) = Some q ∧
        files st !! q ≠ Some Directory) →
  ∃ st1 v,
    write_json env path (save_record l) st = (Return tt, st1) ∧
    read_json env path st1 = (Return v, st1) ∧
    subscript v "locale" = Some (JStr l).
Proof.
  intros Hq (q & Hr & Hd). destruct st as [fs fl out au].
  cbn in Hq, Hr, Hd. subst fl.
  exists (mkState (<[q := RegFile (Text (Json.dumps (save_record l)))]> fs) [] out au),
    (save_record l).
  split; [|split].
  - unfold write_json, json_dump. unfold_M. cbn -[Json.dumps]. rewrite Hr.
    pose proof (follow_not_link _ _ _ _ Hr) as Hl.
    destruct (fs !! q) as [[c|t|]|] eqn:E;
      [|exfalso; exact (Hl t eq_refl)|congruence|].
    all: cbn -[Json.dumps]; rewrite lookup_insert_eq; cbn -[Json.dumps str_drop].
    all: rewrite insert_insert_eq, str_drop_empty, append_empty_r; reflexivity.
  - rewrite read_json_eq. unfold json_load. unfold_M. cbn -[Json.dumps Json.loads].
    unfold realpath in *. rewrite (follow_insert_target _ _ _ _ _ Hr).
    rewrite lookup_insert_eq. cbn -[Json.dumps Json.loads str_drop].
    rewrite lookup_insert_eq, str_drop_0, loads_dumps_locale. reflexivity.
  - reflexivity.
Qed.

(** C9 on a first shutdown with the locale ["de"]: the save file is
    created, and reading it gives ["de"] back. *)
Lemma write_json_read_json_locale_witness :
  ∃ st1 v,
    write_json (Sample.env None) (save_path Sample.prefs) (save_record "de") (Sample.start ∅)
      = (Return tt, st1) ∧
    read_json (Sample.env None) (save_path Sample.prefs) st1 = (Return v, st1) ∧
    subscript v "locale" = Some (JStr "de").
Proof.
  apply (write_json_read_json_locale (Sample.env None) (save_path Sample.prefs)
           (Sample.start ∅) "de").
  - reflexivity.
  - exists Sample.save_file. split; [vm_compute; reflexivity|]. discriminate.
Defined.

(** ** set_autostart twice *)

(** C3, what the code does instead: for an i3 user whose configuration
    holds the launch line, two calls [set_autostart(False)] in a row do not
    leave the same file system: the first turns the line into a comment,
    the second puts another comment mark in front of it.  No error is
    printed. *)
Theorem set_autostart_false_twice_changes_i3_config :
  let st0 := Sample.start Sample.fs_i3 in
  let st1 := snd (set_autostart Sample.prefs (Sample.env None) false st0) in
  let st2 := snd (set_autostart Sample.prefs (Sample.env None) false st1) in
  files st0 !! Sample.i3_config = Some (RegFile (Text "exec --no-startup-id manjaro-hello")) ∧
  files st1 !! Sample.i3_config = Some (RegFile (Text "#exec --no-startup-id manjaro-hello")) ∧
  files st2 !! Sample.i3_config = Some (RegFile (Text "##exec --no-startup-id manjaro-hello")) ∧
  files st2 ≠ files st1 ∧
  stdout st2 = [].
Proof.
  cbv zeta. split; [|split; [|split; [|split]]].
  - vm_compute. reflexivity.
  - vm_compute. reflexivity.
  - vm_compute. reflexivity.
  - intros E. apply (f_equal (λ fs, fs !! Sample.i3_config)) in E.
    vm_compute in E. discriminate E.
  - vm_compute. reflexivity.
Qed.

(** * Further properties of the code *)

(** ** str.replace: matching and skipping *)

Lemma append_cons (c : ascii) (a b : string) : String c a +:+ b = String c (a +:+ b).
Proof. reflexivity. Qed.

Lemma prefix_cons (a c : ascii) (p t : string) :
  String.prefix (String a p) (String c t) = if ascii_dec a c then String.prefix p t else false.
Proof. reflexivity. Qed.

Lemma prefix_app (p s : string) : String.prefix p (p +:+ s) = true.
Proof.
  induction p as [|c p IH]; [apply prefix_empty|].
  change (String c p +:+ s) with (String c (p +:+ s)). cbn [String.prefix].
  destruct (ascii_dec c c); [exact IH|congruence].
Qed.

Lemma prefix_split (p s : string) :
  String.prefix p s = true → ∃ t, s = p +:+ t.
Proof.
  revert s. induction p as [|c p IH]; intros s H.
  - exists s. reflexivity.
  - destruct s as [|d s]; [discriminate H|]. cbn in H.
    destruct (ascii_dec c d) as [->|]; [|discriminate H].
    destruct (IH s H) as [t ->]. exists t. reflexivity.
Qed.

Lemma length_app (a b : string) :
  String.length (a +:+ b) = String.length a + String.length b.
Proof.
  induction a as [|c a IH]; [reflexivity|].
  change (S (String.length (a +:+ b)) = S (String.length a + String.length b)).
  now rewrite IH.
Qed.

Lemma replace_scan_skip (old new a s : string) :
  PyStr.replace_scan old new (String.length a) (a +:+ s) = PyStr.replace_scan old new 0 s.
Proof. induction a as [|c a IH]; [reflexivity|exact IH]. Qed.

Lemma replace_scan_hit (c : ascii) (old new t : string) :
  PyStr.replace_scan (String c old) new 0 (String c old +:+ t)
  = new +:+ PyStr.replace_scan (String c old) new 0 t.
Proof.
  change (String c old +:+ t) with (String c (old +:+ t)).
  cbn [PyStr.replace_scan].
  change (String c (old +:+ t)) with (String c old +:+ t). rewrite prefix_app.
  replace (String.length (String c old) - 1) with (String.length old)
    by (cbn [String.length]; lia).
  now rewrite replace_scan_skip.
Qed.

Lemma replace_scan_miss (old new : string) (c : ascii) (t : string) :
  String.prefix old (String c t) = false →
  PyStr.replace_scan old new 0 (String c t) = String c (PyStr.replace_scan old new 0 t).
Proof. intros H. cbn [PyStr.replace_scan]. now rewrite H. Qed.

(** Putting a mark [h] in front of every [old] and taking it away again. *)
Section Marking.

Variable h : ascii.
Variable c0 : ascii.
Variable old' : string.
Let old : string := String c0 old'.
Hypothesis h_fresh : ¬ occurs h old.

Let mark (s : string) : string := PyStr.replace_scan old (String h old) 0 s.
Let unmark (s : string) : string := PyStr.replace_scan (String h old) old 0 s.

Lemma mark_prefix (p t : string) :
  ¬ occurs h p → String.prefix p (mark t) = true → String.prefix p t = true.
Proof.
  revert t. induction p as [|a p IH]; intros t Hp H; [apply prefix_empty|].
  destruct t as [|c t]; [discriminate H|].
  unfold mark in H. cbn [PyStr.replace_scan] in H.
  destruct (String.prefix old (String c t)) eqn:E.
  - rewrite append_cons, prefix_cons in H.
    destruct (ascii_dec a h) as [->|]; [|discriminate H].
    exfalso. apply Hp. now left.
  - rewrite prefix_cons in H. rewrite prefix_cons.
    destruct (ascii_dec a c); [|discriminate H].
    apply IH; [|exact H]. intros Ho. apply Hp. now right.
Qed.

Lemma mark_not_old (t : string) : String.prefix old (mark t) = false.
Proof.
  destruct (String.prefix old (mark t)) eqn:E; [|reflexivity].
  pose proof (mark_prefix old t h_fresh E) as Ht.
  destruct (prefix_split _ _ Ht) as [t' ->].
  unfold mark in E. subst old. rewrite replace_scan_hit in E.
  rewrite append_cons, prefix_cons in E.
  destruct (ascii_dec c0 h) as [->|]; [|discriminate E].
  exfalso. apply h_fresh. now left.
Qed.

Lemma unmark_mark_le (n : nat) (s : string) :
  String.length s ≤ n → unmark (mark s) = s.
Proof.
  revert s. induction n as [|n IH]; intros s Hn.
  - destruct s; [reflexivity|cbn in Hn; lia].
  - destruct s as [|c t]; [reflexivity|].
    destruct (String.prefix old (String c t)) eqn:E.
    + destruct (prefix_split _ _ E) as [t' Et]. rewrite Et.
      unfold mark, unmark, old. rewrite replace_scan_hit.
      change (String h (String c0 old') +:+ PyStr.replace_scan (String c0 old') (String h (String c0 old')) 0 t')
        with (String h old +:+ mark t').
      rewrite replace_scan_hit. fold (unmark (mark t')). rewrite IH; [reflexivity|].
      apply (f_equal String.length) in Et. rewrite length_app in Et.
      cbn in Et, Hn. lia.
    + unfold mark. rewrite (replace_scan_miss _ _ _ _ E). fold (mark t).
      unfold unmark. rewrite replace_scan_miss.
      * fold (unmark (mark t)). rewrite IH; [reflexivity|]. cbn in Hn. lia.
      * rewrite prefix_cons. destruct (ascii_dec h c); [|reflexivity].
        apply mark_not_old.
Qed.

Lemma unmark_mark (s : string) : unmark (mark s) = s.
Proof. apply (unmark_mark_le (String.length s)). lia. Qed.

End Marking.

Lemma i3_autostart_eq : i3_autostart = "exec --no-startup-id manjaro-hello".
Proof. reflexivity. Qed.

Lemma i3_autostart_no_mark : ¬ occurs "#"%char i3_autostart.
Proof.
  rewrite i3_autostart_eq. cbn. intros H.
  repeat (destruct H as [H|H]; [discriminate H|]). exact H.
Qed.

Lemma uncomment_comment (c : string) : i3_rewrite true (i3_rewrite false c) = c.
Proof.
  unfold i3_rewrite, PyStr.replace.
  change ("#" +:+ i3_autostart) with (String "#" i3_autostart).
  pose proof i3_autostart_no_mark as Hm. revert Hm.
  rewrite i3_autostart_eq. intros Hm.
  exact (unmark_mark "#" "e" "xec --no-startup-id manjaro-hello" Hm c).
Qed.

(** ** What a computation does to the file system *)

Lemma same_or_text_refl (a : option node) : same_or_text a a.
Proof. now left. Qed.

Lemma same_or_text_trans (a b c : option node) :
  same_or_text a b → same_or_text b c → same_or_text a c.
Proof.
  intros [->|(x & y & -> & ->)] [->|(x' & y' & E & ->)].
  - now left.
  - right. eauto.
  - right. eauto.
  - right. injection E as <-. eauto.
Qed.

Lemma same_or_text_insert (fs : gmap string node) (q p : string) (old new : string) :
  fs !! q = Some (RegFile (Text old)) →
  same_or_text (fs !! p) (<[q := RegFile (Text new)]> fs !! p).
Proof.
  intros Hq. destruct (decide (q = p)) as [->|Hne].
  - rewrite lookup_insert_eq. right. eauto.
  - rewrite lookup_insert_ne by exact Hne. now left.
Qed.

Create HintDb fsys.

Lemma text_edits_of_read_only {A : Type} (m : M A) : read_only m → text_edits m.
Proof. intros H st r st' E p. rewrite (H _ _ _ E). apply same_or_text_refl. Qed.

Lemma read_only_ret {A : Type} (a : A) : read_only (mret a).
Proof. intros st r st' [= <- <-]. reflexivity. Qed.

Lemma read_only_raise {A : Type} (e : exn) : read_only (@raise A e).
Proof. intros st r st' [= <- <-]. reflexivity. Qed.

Lemma read_only_bind {A B : Type} (m : M A) (k : A → M B) :
  read_only m → (∀ a, read_only (k a)) → read_only (m ≫= k).
Proof.
  intros Hm Hk st r st'. unfold mbind, M_bind.
  destruct (m st) as [[a|e] st1] eqn:E; intros H.
  - rewrite (Hk a _ _ _ H). eapply Hm, E.
  - injection H as <- <-. eapply Hm, E.
Qed.

Lemma read_only_fmap {A B : Type} (f : A → B) (m : M A) :
  read_only m → read_only (f <$> m).
Proof.
  intros Hm. unfold fmap, M_fmap. apply read_only_bind; [exact Hm|].
  intros a. apply read_only_ret.
Qed.

Lemma read_only_syscall : read_only syscall.
Proof.
  intros st r st'. unfold syscall.
  destruct (faults st) as [|[e|] rest]; intros [= <- <-]; reflexivity.
Qed.

Lemma read_only_get_files : read_only get_files.
Proof. intros st r st' [= <- <-]. reflexivity. Qed.

Lemma read_only_os_path_isfile (p : string) : read_only (os_path_isfile p).
Proof. intros st r st' [= <- <-]. reflexivity. Qed.

Lemma read_only_set_self_autostart (b : bool) : read_only (set_self_autostart b).
Proof. intros st r st' [= <- <-]. reflexivity. Qed.

Lemma read_only_print (e : oserror) : read_only (print e).
Proof. intros st r st' [= <- <-]. reflexivity. Qed.

#[export] Hint Resolve read_only_ret read_only_raise read_only_bind read_only_fmap
  read_only_syscall read_only_get_files read_only_os_path_isfile
  read_only_set_self_autostart read_only_print : fsys.

Ltac read_only_cases :=
  repeat first
    [ progress auto with fsys
    | apply read_only_bind; [|intros ?]
    | match goal with
      | |- read_only (match ?x with _ => _ end) => destruct x
      | |- read_only (let '(_, _) := ?x in _) => destruct x
      end ].

Lemma read_only_open_r (p : string) : read_only (open_ p mode_r).
Proof. unfold open_. read_only_cases. Qed.

Lemma read_only_open_r_plus (p : string) : read_only (open_ p mode_r_plus).
Proof. unfold open_. read_only_cases. Qed.

Lemma read_only_file_read (f : file) : read_only (file_read f).
Proof. unfold file_read. read_only_cases. Qed.

Lemma read_only_file_seek (f : file) (n : nat) : read_only (file_seek f n).
Proof. unfold file_seek. read_only_cases. Qed.

Lemma read_only_closing {A : Type} (f : file) (body : M A) :
  read_only body → read_only (closing f body).
Proof.
  intros Hb st r st'. unfold closing, file_close.
  destruct (body st) as [r1 st1] eqn:E.
  destruct (syscall st1) as [[[]|e] st2] eqn:E2; intros [= <- <-].
  all: rewrite (read_only_syscall _ _ _ E2); eapply Hb, E.
Qed.

Lemma read_only_try {A : Type} (body : M A) (handler : oserror → M A) :
  read_only body → (∀ e, read_only (handler e)) → read_only (try_except_OSError body handler).
Proof.
  intros Hb Hh st r st'. unfold try_except_OSError.
  destruct (body st) as [[a|[e| | | |]] st1] eqn:E; intros H.
  all: try (injection H as <- <-; eapply Hb, E).
  rewrite (Hh e _ _ _ H). eapply Hb, E.
Qed.

#[export] Hint Resolve read_only_open_r read_only_open_r_plus read_only_file_read
  read_only_file_seek read_only_closing read_only_try : fsys.

Lemma text_edits_bind {A B : Type} (m : M A) (k : A → M B) :
  text_edits m → (∀ a, text_edits (k a)) → text_edits (m ≫= k).
Proof.
  intros Hm Hk st r st'. unfold mbind, M_bind.
  destruct (m st) as [[a|e] st1] eqn:E; intros H p.
  - eapply same_or_text_trans; [eapply Hm, E|eapply Hk, H].
  - injection H as <- <-. eapply Hm, E.
Qed.

Lemma text_edits_file_write (f : file) (s : string) : text_edits (file_write f s).
Proof.
  intros st r st' H p. unfold file_write in H. unfold_M.
  destruct (faults st) as [|[e|] rest]; cbn in H.
  all: repeat case_match; simplify_eq/=; try apply same_or_text_refl.
  all: eapply same_or_text_insert; eassumption.
Qed.

Lemma text_edits_file_truncate (f : file) : text_edits (file_truncate f).
Proof.
  intros st r st' H p. unfold file_truncate in H. unfold_M.
  destruct (faults st) as [|[e|] rest]; cbn in H.
  all: repeat case_match; simplify_eq/=; try apply same_or_text_refl.
  all: eapply same_or_text_insert; eassumption.
Qed.

Lemma text_edits_closing {A : Type} (f : file) (body : M A) :
  text_edits body → text_edits (closing f body).
Proof.
  intros Hb st r st'. unfold closing, file_close.
  destruct (body st) as [r1 st1] eqn:E.
  destruct (syscall st1) as [[[]|e] st2] eqn:E2; intros [= <- <-] p.
  all: rewrite (read_only_syscall _ _ _ E2); eapply Hb, E.
Qed.

Lemma text_edits_rewrite_i3 (env : environ) (b : bool) : text_edits (rewrite_i3 env b).
Proof.
  unfold rewrite_i3. cbv zeta.
  apply text_edits_bind; [apply text_edits_of_read_only; auto with fsys|].
  intros [|]; [|apply text_edits_of_read_only; auto with fsys].
  unfold with_open.
  apply text_edits_bind; [apply text_edits_of_read_only; auto with fsys|]. intros f.
  apply text_edits_closing.
  apply text_edits_bind; [apply text_edits_of_read_only; auto with fsys|].
  intros [content f1].
  apply text_edits_bind; [apply text_edits_of_read_only; auto with fsys|]. intros f2.
  apply text_edits_bind; [destruct b; apply text_edits_file_write|]. intros f3.
  apply text_edits_file_truncate.
Qed.

Lemma follow_text_edit (fs fs' : gmap string node) (hops : nat) (p : string) :
  (∀ x, same_or_text (fs !! x) (fs' !! x)) → follow fs' hops p = follow fs hops p.
Proof.
  intros H. revert p. induction hops as [|n IH]; intros p; cbn [follow].
  - destruct (H p) as [->|(c & c' & -> & ->)]; reflexivity.
  - destruct (H p) as [->|(c & c' & -> & ->)]; [|reflexivity].
    destruct (fs !! p) as [[| |]|]; auto.
Qed.

Lemma isfile_text_edit (fs fs' : gmap string node) (p : string) :
  (∀ x, same_or_text (fs !! x) (fs' !! x)) → isfile fs' p = isfile fs p.
Proof.
  intros H. unfold isfile, realpath. rewrite (follow_text_edit fs fs' _ _ H).
  destruct (follow fs MAXSYMLINKS p) as [q|]; [|reflexivity].
  destruct (H q) as [->|(c & c' & -> & ->)]; reflexivity.
Qed.

Lemma isfile_lookup (fs : gmap string node) (p : string) :
  isfile fs p = true → ∃ n, fs !! p = Some n ∧ n ≠ Directory.
Proof.
  unfold isfile, realpath, MAXSYMLINKS. cbn [follow].
  destruct (fs !! p) as [[c|t|]|] eqn:E.
  - eauto.
  - intros _. exists (SymLink t). split; [reflexivity|discriminate].
  - rewrite E. discriminate.
  - rewrite E. discriminate.
Qed.

Lemma isfile_absent (fs : gmap string node) (p : string) :
  fs !! p = None → isfile fs p = false.
Proof.
  intros E. unfold isfile, realpath, MAXSYMLINKS. cbn [follow]. now rewrite E, E.
Qed.

Lemma realpath_regular (fs : gmap string node) (p : string) (c : contents) :
  fs !! p = Some (RegFile c) → realpath fs p = Some p.
Proof. intros E. unfold realpath, MAXSYMLINKS. cbn [follow]. now rewrite E. Qed.

(** ** The parts of set_autostart *)

Lemma set_autostart_body_split (prefs : preferences) (env : environ) (b : bool)
    (st : state) :
  set_autostart_body prefs env b st
  = (toggle_link prefs env b ≫= λ _, rewrite_i3 env b ≫= λ _, set_self_autostart b) st.
Proof.
  unfold set_autostart_body, toggle_link, rewrite_i3, mbind, M_bind.
  destruct b; cbn.
  - destruct (isfile (files st) (fix_path env (autostart_path prefs))); cbn; reflexivity.
  - destruct (isfile (files st) (fix_path env (autostart_path prefs))); cbn; reflexivity.
Qed.

Lemma toggle_link_other (prefs : preferences) (env : environ) (b : bool)
    (st st' : state) (r : result unit) (p : string) :
  toggle_link prefs env b st = (r, st') →
  p ≠ link_path prefs env → files st' !! p = files st !! p.
Proof.
  unfold toggle_link, link_path. intros H Hp. unfold_M.
  destruct b; cbn in H.
  all: destruct (isfile (files st) (fix_path env (autostart_path prefs))); cbn in H.
  all: destruct (faults st) as [|[e|] rest]; cbn in H.
  all: repeat case_match; simplify_eq/=; try reflexivity.
  all: first [ apply lookup_insert_ne; congruence | apply lookup_delete_ne; congruence ].
Qed.

(** X1: whatever happens, [set_autostart] creates, removes or retargets no
    name but the autostart link; apart from the link the only change it
    can make is to the text of a text file that is already there. *)
Theorem set_autostart_touches_only_link_and_text (prefs : preferences) (env : environ)
    (b : bool) (st : state) (p : string) :
  p ≠ link_path prefs env →
  same_or_text (files st !! p) (files (snd (set_autostart prefs env b st)) !! p).
Proof.
  intros Hp. unfold set_autostart, try_except_OSError.
  rewrite set_autostart_body_split. unfold mbind, M_bind.
  destruct (toggle_link prefs env b st) as [r1 st1] eqn:E1.
  pose proof (toggle_link_other _ _ _ _ _ _ p E1 Hp) as H1.
  assert (∀ r2 st2, (r1, st1) = (r2, st2) → same_or_text (files st !! p) (files st2 !! p))
    as Hst1.
  { intros r2 st2 [= <- <-]. rewrite H1. apply same_or_text_refl. }
  destruct r1 as [[]|e1].
  - destruct (rewrite_i3 env b st1) as [r2 st2] eqn:E2.
    pose proof (text_edits_rewrite_i3 env b _ _ _ E2 p) as H2.
    rewrite H1 in H2.
    destruct r2 as [[]|[e| | | |]]; cbn; exact H2.
  - destruct e1 as [e| | | |]; cbn; rewrite H1; apply same_or_text_refl.
Qed.

Lemma set_autostart_touches_only_link_and_text_witness :
  same_or_text (Sample.fs_i3 !! Sample.i3_config)
    (files (snd (set_autostart Sample.prefs (Sample.env None) false
                   (Sample.start Sample.fs_i3))) !! Sample.i3_config).
Proof.
  apply (set_autostart_touches_only_link_and_text Sample.prefs (Sample.env None) false
           (Sample.start Sample.fs_i3) Sample.i3_config).
  vm_compute. discriminate.
Defined.

(** ** Readers *)

Lemma frames_try {A : Type} (body : M A) (handler : oserror → M A) :
  frames body → (∀ e, frames (handler e)) → frames (try_except_OSError body handler).
Proof.
  intros Hb Hh st r st'. unfold try_except_OSError.
  destruct (body st) as [[a|[e| | | |]] st1] eqn:E; intros H.
  all: try (injection H as <- <-; eapply Hb, E).
  destruct (Hb _ _ _ E) as [E1 E2]. destruct (Hh e _ _ _ H) as [E3 E4].
  split; congruence.
Qed.

Lemma read_only_get_page (prefs : preferences) (env : environ)
    (saved : option string) (name : string) :
  read_only (get_page prefs env saved name) ∧ frames (get_page prefs env saved name).
Proof.
  unfold get_page. split.
  - apply read_only_bind; [auto with fsys|]. intros present.
    apply read_only_try; [|auto with fsys].
    unfold with_open. apply read_only_bind; [auto with fsys|]. intros f.
    auto with fsys.
  - apply frames_bind; [auto with frames|]. intros present.
    apply frames_try; [|auto with frames].
    auto with frames.
Qed.

Lemma read_only_json_load (fil : file) : read_only (json_load fil) ∧ frames (json_load fil).
Proof.
  unfold json_load. split.
  - apply read_only_bind; [auto with fsys|]. intros [text f].
    destruct (Json.loads text); auto with fsys.
  - apply frames_bind; [auto with frames|]. intros [text f].
    destruct (Json.loads text); auto with frames.
Qed.

Lemma read_only_read_json (env : environ) (path : string) :
  read_only (read_json env path) ∧ frames (read_json env path).
Proof.
  unfold read_json. cbv zeta. split.
  - apply read_only_try; [|auto with fsys].
    unfold with_open. apply read_only_bind; [auto with fsys|]. intros f.
    apply read_only_closing, read_only_json_load.
  - apply frames_try; [|auto with frames].
    apply frames_with_open. intros f. apply read_only_json_load.
Qed.

Lemma read_only_init_save (prefs : preferences) (env : environ) :
  read_only (init_save prefs env) ∧ frames (init_save prefs env).
Proof.
  unfold init_save. split.
  - apply read_only_bind; [apply read_only_read_json|]. intros save.
    destruct (negb (Json.truthy save)); auto with fsys.
  - apply frames_bind; [apply read_only_read_json|]. intros save.
    destruct (negb (Json.truthy save)); auto with frames.
Qed.

(** X2: [get_page], [read_json] and the loading of the save record at
    start-up only read: whatever they return or raise, the file system,
    the output and [self.autostart] are as before. *)
Theorem readers_change_nothing (prefs : preferences) (env : environ)
    (saved : option string) (name path : string) (st : state) :
  let unchanged (st' : state) :=
    files st' = files st ∧ stdout st' = stdout st ∧
    self_autostart st' = self_autostart st in
  unchanged (snd (get_page prefs env saved name st)) ∧
  unchanged (snd (read_json env path st)) ∧
  unchanged (snd (init_save prefs env st)).
Proof.
  cbv zeta. repeat split.
  - destruct (get_page prefs env saved name st) as [r st'] eqn:E.
    apply (proj1 (read_only_get_page prefs env saved name) _ _ _ E).
  - destruct (get_page prefs env saved name st) as [r st'] eqn:E.
    apply (proj2 (read_only_get_page prefs env saved name) _ _ _ E).
  - destruct (get_page prefs env saved name st) as [r st'] eqn:E.
    apply (proj2 (read_only_get_page prefs env saved name) _ _ _ E).
  - destruct (read_json env path st) as [r st'] eqn:E.
    apply (proj1 (read_only_read_json env path) _ _ _ E).
  - destruct (read_json env path st) as [r st'] eqn:E.
    apply (proj2 (read_only_read_json env path) _ _ _ E).
  - destruct (read_json env path st) as [r st'] eqn:E.
    apply (proj2 (read_only_read_json env path) _ _ _ E).
  - destruct (init_save prefs env st) as [r st'] eqn:E.
    apply (proj1 (read_only_init_save prefs env) _ _ _ E).
  - destruct (init_save prefs env st) as [r st'] eqn:E.
    apply (proj2 (read_only_init_save prefs env) _ _ _ E).
  - destruct (init_save prefs env st) as [r st'] eqn:E.
    apply (proj2 (read_only_init_save prefs env) _ _ _ E).
Qed.

(** ** set_autostart when the environment fails no call *)

Lemma str_take_0 (s : string) : str_take 0 s = EmptyString.
Proof. destruct s; reflexivity. Qed.

Lemma str_take_app (a b : string) : str_take (String.length a) (a +:+ b) = a.
Proof.
  induction a as [|c a IH]; [apply str_take_0|].
  unfold str_take in *. rewrite append_cons. cbn [String.length String.substring].
  now rewrite IH.
Qed.

Lemma toggle_link_quiet (prefs : preferences) (env : environ) (b : bool) (st : state) :
  faults st = [] →
  let link := link_path prefs env in
  toggle_link prefs env b st =
    if isfile (files st) link
    then if b then (Return tt, st)
         else (Return tt, mkState (delete link (files st)) [] (stdout st) (self_autostart st))
    else if b
         then match files st !! link with
              | None => (Return tt, mkState (<[link := SymLink (desktop_path prefs)]> (files st))
                                     [] (stdout st) (self_autostart st))
              | Some _ => (Raise (OSError FileExistsError), st)
              end
         else (Return tt, st).
Proof.
  intros Hq link. unfold toggle_link. fold (link_path prefs env). fold link.
  destruct st as [fs fl out au]. cbn in Hq. subst fl. unfold_M. cbn.
  destruct (isfile fs link) eqn:Hf; destruct b; cbn; rewrite ?Hf; cbn; try reflexivity.
  - destruct (isfile_lookup _ _ Hf) as (n & -> & Hn).
    destruct n; [reflexivity|reflexivity|contradiction].
  - destruct (fs !! link); reflexivity.
Qed.

Lemma rewrite_i3_absent (env : environ) (b : bool) (st : state) :
  isfile (files st) (i3_config_path env) = false →
  rewrite_i3 env b st = (Return tt, st).
Proof.
  unfold rewrite_i3. cbv zeta. fold (i3_config_path env).
  generalize (i3_config_path env). intros p H. unfold_M. now rewrite H.
Qed.

Lemma rewrite_i3_text (env : environ) (b : bool) (st : state) (q c : string) :
  faults st = [] →
  realpath (files st) (i3_config_path env) = Some q →
  files st !! q = Some (RegFile (Text c)) →
  rewrite_i3 env b st =
    (Return tt, mkState (<[q := RegFile (Text (i3_rewrite b c))]> (files st)) []
                  (stdout st) (self_autostart st)).
Proof.
  unfold rewrite_i3. cbv zeta. fold (i3_config_path env).
  generalize (i3_config_path env). intros p Hq Hr Hn.
  assert (isfile (files st) p = true) as Hf
    by (unfold isfile; now rewrite Hr, Hn).
  destruct st as [fs fl out au]. cbn in Hq, Hr, Hn, Hf. subst fl.
  unfold_M. cbn -[str_take str_drop i3_autostart PyStr.replace].
  rewrite Hf. cbn -[str_take str_drop i3_autostart PyStr.replace].
  rewrite Hr, Hn. cbn -[str_take str_drop i3_autostart PyStr.replace].
  rewrite Hn. cbn -[str_take str_drop i3_autostart PyStr.replace].
  rewrite str_drop_0.
  fold (i3_rewrite true c). fold (i3_rewrite false c).
  destruct b; cbn -[str_take str_drop i3_rewrite].
  all: rewrite Hn; cbn -[str_take str_drop i3_rewrite].
  all: rewrite lookup_insert_eq, insert_insert_eq, str_take_0.
  all: match goal with
       | |- context [str_take ?n (EmptyString +:+ ?s +:+ ?t)] =>
           change (EmptyString +:+ s +:+ t) with (s +:+ t)
       end.
  all: now rewrite str_take_app.
Qed.

Lemma rewrite_i3_undecodable (env : environ) (b : bool) (st : state) :
  faults st = [] → holds_undecodable (files st) (i3_config_path env) →
  rewrite_i3 env b st = (Raise UnicodeDecodeError, st).
Proof.
  unfold rewrite_i3. cbv zeta. fold (i3_config_path env).
  generalize (i3_config_path env). intros p Hq (q & Hr & Hn).
  assert (isfile (files st) p = true) as Hf
    by (unfold isfile; now rewrite Hr, Hn).
  destruct st as [fs fl out au]. cbn in Hq, Hr, Hn, Hf. subst fl.
  unfold_M. cbn. rewrite Hf. cbn. rewrite Hr, Hn. cbn. now rewrite Hn.
Qed.

Lemma toggle_link_after (prefs : preferences) (env : environ) (b : bool) (st : state) :
  faults st = [] →
  (b = true → files st !! link_path prefs env = None ∨
              isfile (files st) (link_path prefs env) = true) →
  toggle_link prefs env b st =
    (Return tt, mkState (link_after prefs env b (files st)) [] (stdout st) (self_autostart st)).
Proof.
  intros Hq Hb. rewrite (toggle_link_quiet prefs env b st Hq). cbv zeta.
  unfold link_after. destruct st as [fs fl out au]. cbn in *. subst fl.
  destruct (isfile fs (link_path prefs env)) eqn:Hf; destruct b; try reflexivity.
  destruct (Hb eq_refl) as [->|H]; [reflexivity|discriminate H].
Qed.

Lemma isfile_link_after (prefs : preferences) (env : environ) (b : bool)
    (fs : gmap string node) :
  (b = true → (∃ c, fs !! desktop_path prefs = Some (RegFile c)) ∧
              (fs !! link_path prefs env = None ∨ isfile fs (link_path prefs env) = true)) →
  isfile (link_after prefs env b fs) (link_path prefs env) = b.
Proof.
  intros Hb. unfold link_after.
  destruct (isfile fs (link_path prefs env)) eqn:Hf; destruct b; try assumption.
  - apply isfile_absent, lookup_delete_eq.
  - destruct (Hb eq_refl) as [[c Hd] [Hl|Hl]]; [|congruence].
    assert (desktop_path prefs ≠ link_path prefs env) as Hne by congruence.
    unfold isfile, realpath, MAXSYMLINKS. cbn [follow].
    rewrite lookup_insert_eq. rewrite lookup_insert_ne by congruence.
    rewrite Hd. rewrite lookup_insert_ne by congruence. now rewrite Hd.
Qed.

Lemma set_autostart_files (prefs : preferences) (env : environ) (b : bool)
    (st st1 : state) :
  toggle_link prefs env b st = (Return tt, st1) →
  files (snd (set_autostart prefs env b st)) = files (snd (rewrite_i3 env b st1)).
Proof.
  intros E. unfold set_autostart, try_except_OSError.
  rewrite set_autostart_body_split. unfold mbind, M_bind. rewrite E.
  destruct (rewrite_i3 env b st1) as [[[]|[e| | | |]] st2]; reflexivity.
Qed.

(** X3: with an environment that fails no call, the switch survives a
    restart: after [set_autostart(False)] the test that [__init__] makes
    finds no file at the autostart path, and after [set_autostart(True)] it
    finds one, provided the desktop entry is a regular file and the
    autostart path was free or already a file. *)
Theorem set_autostart_then_restart (prefs : preferences) (env : environ)
    (b : bool) (st : state) :
  faults st = [] →
  (b = true → (∃ c, files st !! desktop_path prefs = Some (RegFile c)) ∧
              (files st !! link_path prefs env = None ∨
               isfile (files st) (link_path prefs env) = true)) →
  isfile (files (snd (set_autostart prefs env b st))) (link_path prefs env) = b ∧
  self_autostart (snd (init_autostart prefs env (snd (set_autostart prefs env b st)))) = b.
Proof.
  intros Hq Hb.
  assert (isfile (files (snd (set_autostart prefs env b st))) (link_path prefs env) = b)
    as H.
  { pose proof (toggle_link_after prefs env b st Hq) as E.
    rewrite (set_autostart_files _ _ _ _ _ (E (λ Hb', proj2 (Hb Hb')))).
    destruct (rewrite_i3 env b _) as [r2 st2] eqn:E2.
    pose proof (text_edits_rewrite_i3 env b _ _ _ E2) as Ht. cbn [files snd] in *.
    rewrite (isfile_text_edit _ _ _ Ht). now apply isfile_link_after. }
  split; [exact H|].
  unfold init_autostart, link_path in *. unfold_M. cbn. exact H.
Qed.

Lemma set_autostart_then_restart_witness :
  isfile (files (snd (set_autostart Sample.prefs (Sample.env None) true
                        (Sample.start Sample.fs_i3))))
         (link_path Sample.prefs (Sample.env None)) = true ∧
  self_autostart (snd (init_autostart Sample.prefs (Sample.env None)
                         (snd (set_autostart Sample.prefs (Sample.env None) true
                                 (Sample.start Sample.fs_i3))))) = true.
Proof.
  apply (set_autostart_then_restart Sample.prefs (Sample.env None) true
           (Sample.start Sample.fs_i3)).
  - reflexivity.
  - intros _. split.
    + eexists. vm_compute. reflexivity.
    + left. vm_compute. reflexivity.
Defined.

Lemma link_after_other (prefs : preferences) (env : environ) (b : bool)
    (fs : gmap string node) (p : string) :
  p ≠ link_path prefs env → link_after prefs env b fs !! p = fs !! p.
Proof.
  intros Hp. unfold link_after.
  destruct (isfile fs (link_path prefs env)); destruct b; try reflexivity.
  - apply lookup_delete_ne. congruence.
  - apply lookup_insert_ne. congruence.
Qed.

(** X4: one call on a system where nothing fails and no i3 configuration
    is found: the link is toggled as the transition table says, nothing
    else changes, nothing is printed and [self.autostart] is the wanted
    state. *)
Theorem set_autostart_without_i3 (prefs : preferences) (env : environ)
    (b : bool) (st : state) :
  faults st = [] →
  (b = true → files st !! link_path prefs env = None ∨
              isfile (files st) (link_path prefs env) = true) →
  isfile (link_after prefs env b (files st)) (i3_config_path env) = false →
  set_autostart prefs env b st =
    (Return tt, mkState (link_after prefs env b (files st)) [] (stdout st) b).
Proof.
  intros Hq Hb Hi. unfold set_autostart, try_except_OSError.
  rewrite set_autostart_body_split. unfold mbind, M_bind.
  rewrite (toggle_link_after prefs env b st Hq Hb).
  rewrite rewrite_i3_absent by exact Hi. reflexivity.
Qed.

Lemma set_autostart_without_i3_witness :
  set_autostart Sample.prefs (Sample.env None) true (Sample.start Sample.fs_pages) =
    (Return tt,
     mkState (link_after Sample.prefs (Sample.env None) true Sample.fs_pages) [] [] true).
Proof.
  apply (set_autostart_without_i3 Sample.prefs (Sample.env None) true
           (Sample.start Sample.fs_pages)).
  - reflexivity.
  - intros _. left. vm_compute. reflexivity.
  - vm_compute. reflexivity.
Defined.

Lemma set_autostart_i3_effect (prefs : preferences) (env : environ)
    (b : bool) (st : state) (c : string) :
  faults st = [] →
  (b = true → files st !! link_path prefs env = None ∨
              isfile (files st) (link_path prefs env) = true) →
  i3_config_path env ≠ link_path prefs env →
  files st !! i3_config_path env = Some (RegFile (Text c)) →
  set_autostart prefs env b st =
    (Return tt,
     mkState (<[i3_config_path env := RegFile (Text (i3_rewrite b c))]>
                (link_after prefs env b (files st)))
             [] (stdout st) b).
Proof.
  intros Hq Hb Hne Hc. unfold set_autostart, try_except_OSError.
  rewrite set_autostart_body_split. unfold mbind, M_bind.
  rewrite (toggle_link_after prefs env b st Hq Hb).
  assert (link_after prefs env b (files st) !! i3_config_path env
          = Some (RegFile (Text c))) as Hc'
    by (rewrite link_after_other by exact Hne; exact Hc).
  rewrite (rewrite_i3_text env b
             (mkState (link_after prefs env b (files st)) [] (stdout st) (self_autostart st))
             (i3_config_path env) c eq_refl (realpath_regular _ _ _ Hc') Hc').
  reflexivity.
Qed.

(** X5: one call on a system where nothing fails and the i3 configuration
    is a text file: besides the link, exactly the text of that file
    changes, and it becomes the substituted text, with no rest of the old
    text behind it when the new one is shorter. *)
Theorem set_autostart_with_i3 (prefs : preferences) (env : environ)
    (b : bool) (st : state) (c : string) :
  faults st = [] →
  (b = true → files st !! link_path prefs env = None ∨
              isfile (files st) (link_path prefs env) = true) →
  i3_config_path env ≠ link_path prefs env →
  files st !! i3_config_path env = Some (RegFile (Text c)) →
  set_autostart prefs env b st =
    (Return tt,
     mkState (<[i3_config_path env := RegFile (Text (i3_rewrite b c))]>
                (link_after prefs env b (files st)))
             [] (stdout st) b).
Proof.
  intros Hq Hb Hne Hc. unfold set_autostart, try_except_OSError.
  rewrite set_autostart_body_split. unfold mbind, M_bind.
  rewrite (toggle_link_after prefs env b st Hq Hb).
  assert (link_after prefs env b (files st) !! i3_config_path env
          = Some (RegFile (Text c))) as Hc'
    by (rewrite link_after_other by exact Hne; exact Hc).
  rewrite (rewrite_i3_text env b
             (mkState (link_after prefs env b (files st)) [] (stdout st) (self_autostart st))
             (i3_config_path env) c eq_refl (realpath_regular _ _ _ Hc') Hc').
  reflexivity.
Qed.

Lemma set_autostart_with_i3_witness :
  set_autostart Sample.prefs (Sample.env None) false (Sample.start Sample.fs_registered) =
    (Return tt,
     mkState (<[i3_config_path (Sample.env None) :=
                  RegFile (Text (i3_rewrite false "exec --no-startup-id manjaro-hello"))]>
                (link_after Sample.prefs (Sample.env None) false Sample.fs_registered))
             [] [] false).
Proof.
  apply (set_autostart_with_i3 Sample.prefs (Sample.env None) false
           (Sample.start Sample.fs_registered)).
  - reflexivity.
  - discriminate.
  - vm_compute. discriminate.
  - vm_compute. reflexivity.
Defined.

(** X6: switching autostart off and on again gives the i3 configuration its
    text back, whatever that text is: the comment mark put in front of
    every launch line is the one taken away. *)
Theorem set_autostart_off_on_restores_i3 (prefs : preferences) (env : environ)
    (st : state) (c : string) :
  faults st = [] →
  files st !! link_path prefs env = None ∨
    isfile (files st) (link_path prefs env) = true →
  i3_config_path env ≠ link_path prefs env →
  files st !! i3_config_path env = Some (RegFile (Text c)) →
  let st1 := snd (set_autostart prefs env false st) in
  let r2 := set_autostart prefs env true st1 in
  fst r2 = Return tt ∧
  files (snd r2) !! i3_config_path env = Some (RegFile (Text c)) ∧
  stdout (snd r2) = stdout st ∧
  self_autostart (snd r2) = true.
Proof.
  intros Hq Hl Hne Hc. cbv zeta.
  rewrite (set_autostart_i3_effect prefs env false st c Hq (λ H, Hl) Hne Hc). cbn [snd].
  set (fs1 := <[i3_config_path env := RegFile (Text (i3_rewrite false c))]>
                (link_after prefs env false (files st))).
  assert (fs1 !! link_path prefs env = None) as Hl1.
  { subst fs1. rewrite lookup_insert_ne by exact Hne. unfold link_after.
    destruct (isfile (files st) (link_path prefs env)) eqn:Hf.
    - apply lookup_delete_eq.
    - destruct Hl as [Hl|Hl]; [exact Hl|congruence]. }
  assert (fs1 !! i3_config_path env = Some (RegFile (Text (i3_rewrite false c)))) as Hc1
    by (subst fs1; apply lookup_insert_eq).
  rewrite (set_autostart_i3_effect prefs env true
             (mkState fs1 [] (stdout st) false) (i3_rewrite false c)
             eq_refl (λ _, or_introl Hl1) Hne Hc1).
  cbn [fst snd files stdout self_autostart].
  rewrite lookup_insert_eq, uncomment_comment. auto.
Qed.

Lemma set_autostart_off_on_restores_i3_witness :
  fst (set_autostart Sample.prefs (Sample.env None) true
         (snd (set_autostart Sample.prefs (Sample.env None) false
                 (Sample.start Sample.fs_registered)))) = Return tt ∧
  files (snd (set_autostart Sample.prefs (Sample.env None) true
                (snd (set_autostart Sample.prefs (Sample.env None) false
                        (Sample.start Sample.fs_registered)))))
    !! i3_config_path (Sample.env None)
  = Some (RegFile (Text "exec --no-startup-id manjaro-hello")) ∧
  stdout (snd (set_autostart Sample.prefs (Sample.env None) true
                 (snd (set_autostart Sample.prefs (Sample.env None) false
                         (Sample.start Sample.fs_registered))))) = [] ∧
  self_autostart (snd (set_autostart Sample.prefs (Sample.env None) true
                         (snd (set_autostart Sample.prefs (Sample.env None) false
                                 (Sample.start Sample.fs_registered))))) = true.
Proof.
  apply (set_autostart_off_on_restores_i3 Sample.prefs (Sample.env None)
           (Sample.start Sample.fs_registered) "exec --no-startup-id manjaro-hello").
  - reflexivity.
  - right. vm_compute. reflexivity.
  - vm_compute. discriminate.
  - vm_compute. reflexivity.
Defined.

(** X7: switching autostart on and off again gives the i3 configuration its
    text back when that text is what commenting out leaves, that is, when
    every launch line in it carries the comment mark that switching off
    puts there. *)
Theorem set_autostart_on_off_restores_commented_i3 (prefs : preferences)
    (env : environ) (st : state) (c0 : string) :
  faults st = [] →
  files st !! link_path prefs env = None ∨
    isfile (files st) (link_path prefs env) = true →
  i3_config_path env ≠ link_path prefs env →
  files st !! i3_config_path env = Some (RegFile (Text (i3_rewrite false c0))) →
  let st1 := snd (set_autostart prefs env true st) in
  let r2 := set_autostart prefs env false st1 in
  fst r2 = Return tt ∧
  files (snd r2) !! i3_config_path env = Some (RegFile (Text (i3_rewrite false c0))) ∧
  stdout (snd r2) = stdout st ∧
  self_autostart (snd r2) = false.
Proof.
  intros Hq Hl Hne Hc. cbv zeta.
  rewrite (set_autostart_i3_effect prefs env true st _ Hq (λ _, Hl) Hne Hc). cbn [snd].
  rewrite uncomment_comment.
  set (fs1 := <[i3_config_path env := RegFile (Text c0)]>
                (link_after prefs env true (files st))).
  assert (fs1 !! i3_config_path env = Some (RegFile (Text c0))) as Hc1
    by (subst fs1; apply lookup_insert_eq).
  assert (false = true → fs1 !! link_path prefs env = None ∨
                         isfile fs1 (link_path prefs env) = true) as Hb
    by discriminate.
  rewrite (set_autostart_i3_effect prefs env false
             (mkState fs1 [] (stdout st) true) c0 eq_refl Hb Hne Hc1).
  cbn [fst snd files stdout self_autostart].
  rewrite lookup_insert_eq. auto.
Qed.

Lemma set_autostart_on_off_restores_commented_i3_witness :
  fst (set_autostart Sample.prefs (Sample.env None) false
         (snd (set_autostart Sample.prefs (Sample.env None) true
                 (Sample.start (<[Sample.i3_config :=
                                    RegFile (Text (i3_rewrite false "exec --no-startup-id manjaro-hello"))]>
                                  Sample.fs_i3))))) = Return tt.
Proof.
  apply (set_autostart_on_off_restores_commented_i3 Sample.prefs (Sample.env None)
           (Sample.start (<[Sample.i3_config :=
                              RegFile (Text (i3_rewrite false "exec --no-startup-id manjaro-hello"))]>
                            Sample.fs_i3))
           "exec --no-startup-id manjaro-hello").
  - reflexivity.
  - left. vm_compute. reflexivity.
  - vm_compute. discriminate.
  - vm_compute. reflexivity.
Defined.

(** X8: an i3 configuration that is a file but cannot be decoded as text
    makes [set_autostart] raise [UnicodeDecodeError], which its handler for
    [OSError] lets through: by then the link is already toggled, while
    [self.autostart] keeps its old value and nothing is printed. *)
Theorem set_autostart_undecodable_i3_raises (prefs : preferences) (env : environ)
    (b : bool) (st : state) :
  faults st = [] →
  (b = true → files st !! link_path prefs env = None ∨
              isfile (files st) (link_path prefs env) = true) →
  holds_undecodable (link_after prefs env b (files st)) (i3_config_path env) →
  set_autostart prefs env b st =
    (Raise UnicodeDecodeError,
     mkState (link_after prefs env b (files st)) [] (stdout st) (self_autostart st)).
Proof.
  intros Hq Hb Hu. unfold set_autostart, try_except_OSError.
  rewrite set_autostart_body_split. unfold mbind, M_bind.
  rewrite (toggle_link_after prefs env b st Hq Hb).
  rewrite (rewrite_i3_undecodable env b
             (mkState (link_after prefs env b (files st)) [] (stdout st) (self_autostart st))
             eq_refl Hu).
  reflexivity.
Qed.

Lemma set_autostart_undecodable_i3_raises_witness :
  set_autostart Sample.prefs (Sample.env None) true
    (Sample.start fs_i3_binary) =
    (Raise UnicodeDecodeError,
     mkState (link_after Sample.prefs (Sample.env None) true fs_i3_binary) [] [] false).
Proof.
  apply (set_autostart_undecodable_i3_raises Sample.prefs (Sample.env None) true
           (Sample.start fs_i3_binary)).
  - reflexivity.
  - intros _. left. vm_compute. reflexivity.
  - exists Sample.i3_config. split; vm_compute; reflexivity.
Defined.

(** ** write_json and the save record across a restart *)

Lemma open_w_outcome (p : string) (st st1 : state) (r : result file) :
  open_ p mode_w st = (r, st1) →
  (∃ q, r = Return (mkFile q 0) ∧ files st1 !! q = Some (RegFile (Text EmptyString))) ∨
  (∃ e, r = Raise (OSError e)).
Proof.
  unfold open_. unfold_M. intros H.
  destruct (faults st) as [|[e|] rest]; cbn in H.
  all: repeat case_match; simplify_eq/=; eauto.
  all: left; eexists; split; [reflexivity|apply lookup_insert_eq].
Qed.

Lemma json_dump_outcome (content : json) (f : file) (old : string) (st st1 : state)
    (r : result unit) :
  files st !! f_name f = Some (RegFile (Text old)) →
  json_dump content f st = (r, st1) →
  r = Return tt ∨ ∃ e, r = Raise (OSError e).
Proof.
  unfold json_dump, file_write. unfold_M. intros Hf H.
  destruct (faults st) as [|[e|] rest]; cbn in H.
  all: rewrite ?Hf in H; cbn in H; simplify_eq/=; eauto.
Qed.

(** X9: [write_json] never raises, whatever value it is given and whatever
    the environment does: it returns, having printed at most one error,
    and leaves [self.autostart] alone. *)
Theorem write_json_always_returns (env : environ) (path : string) (content : json)
    (st : state) :
  ∃ st', write_json env path content st = (Return tt, st') ∧
         self_autostart st' = self_autostart st ∧
         (stdout st' = stdout st ∨ ∃ e, stdout st' = stdout st ++ [e]).
Proof.
  unfold write_json, try_except_OSError, with_open. cbv zeta.
  unfold mbind at 1, M_bind at 1.
  destruct (open_ (fix_path env path) mode_w st) as [r0 st0] eqn:E0.
  destruct (frames_open _ _ _ _ _ E0) as [O0 A0].
  destruct (open_w_outcome _ _ _ _ E0) as [(q & -> & Hq)|(e & ->)].
  - unfold closing, file_close.
    destruct (json_dump content (mkFile q 0) st0) as [r1 st1] eqn:E1.
    assert (frames (json_dump content (mkFile q 0))) as F1
      by (unfold json_dump; auto with frames).
    destruct (F1 _ _ _ E1) as [O1 A1].
    destruct (json_dump_outcome content (mkFile q 0) EmptyString st0 st1 r1 Hq E1)
      as [->|(e & ->)].
    all: destruct (syscall st1) as [[[]|x] st2] eqn:E2.
    all: destruct (frames_syscall _ _ _ E2) as [O2 A2].
    all: try (pose proof (read_only_syscall _ _ _ E2) as R2).
    all: unfold syscall in E2; destruct (faults st1) as [|[y|] rest]; simplify_eq/=.
    all: eexists; split; [reflexivity|]; cbn; split; [congruence|].
    all: first [ left; congruence | right; eexists; f_equal; congruence ].
  - eexists. split; [reflexivity|]. cbn. split; [congruence|].
    right. eexists. f_equal. congruence.
Qed.

Lemma write_json_read_json_content (env : environ) (path : string) (content : json)
    (fs : gmap string node) (out : list oserror) (au : bool) (q : string) :
  Json.loads (Json.dumps content) = Json.Decoded content →
  realpath fs (fix_path env path) = Some q →
  fs !! q ≠ Some Directory →
  let st1 := mkState (<[q := RegFile (Text (Json.dumps content))]> fs) [] out au in
  write_json env path content (mkState fs [] out au) = (Return tt, st1) ∧
  read_json env path st1 = (Return content, st1).
Proof.
  intros Hl Hr Hd. cbv zeta. split.
  - unfold write_json, json_dump. unfold_M. cbn -[Json.dumps]. rewrite Hr.
    pose proof (follow_not_link _ _ _ _ Hr) as Hk.
    destruct (fs !! q) as [[c|t|]|] eqn:E;
      [|exfalso; exact (Hk t eq_refl)|congruence|].
    all: cbn -[Json.dumps]; rewrite lookup_insert_eq; cbn -[Json.dumps str_drop].
    all: rewrite insert_insert_eq, str_drop_empty, append_empty_r; reflexivity.
  - rewrite read_json_eq. unfold json_load. unfold_M. cbn -[Json.dumps Json.loads].
    unfold realpath in *. rewrite (follow_insert_target _ _ _ _ _ Hr).
    rewrite lookup_insert_eq. cbn -[Json.dumps Json.loads str_drop].
    rewrite lookup_insert_eq, str_drop_0, Hl. reflexivity.
Qed.

Lemma loads_dumps_save_of (v : option string) :
  Json.loads (Json.dumps (save_of v)) = Json.Decoded (save_of v).
Proof.
  destruct v as [l|]; [|reflexivity].
  exact (loads_dumps_locale l).
Qed.

(** X10: the save record survives a restart.  When the environment fails no
    call and the save path does not lead to a directory, what
    [on_delete_window] writes for a record [{"locale": v}], [v] a string
    or [None], is what the next start-up loads as [self.save]. *)
Theorem save_survives_restart (prefs : preferences) (env : environ)
    (v : option string) (st : state) :
  faults st = [] →
  (∃ q, realpath (files st) (fix_path env (save_path prefs)) = Some q ∧
        files st !! q ≠ Some Directory) →
  ∃ st1,
    on_delete_window prefs env (save_of v) st = (Return tt, st1) ∧
    init_save prefs env st1 = (Return (save_of v), st1).
Proof.
  intros Hq (q & Hr & Hd). destruct st as [fs fl out au]. cbn in Hq, Hr, Hd. subst fl.
  destruct (write_json_read_json_content env (save_path prefs) (save_of v) fs out au q
              (loads_dumps_save_of v) Hr Hd) as [Hw Hrd].
  eexists. split; [exact Hw|].
  unfold init_save, mbind, M_bind. rewrite Hrd. reflexivity.
Qed.

Lemma save_survives_restart_witness :
  ∃ st1,
    on_delete_window Sample.prefs (Sample.env None) (save_of None) (Sample.start ∅)
      = (Return tt, st1) ∧
    init_save Sample.prefs (Sample.env None) st1 = (Return (save_of None), st1).
Proof.
  apply (save_survives_restart Sample.prefs (Sample.env None) None (Sample.start ∅)).
  - reflexivity.
  - exists Sample.save_file. split; [vm_compute; reflexivity|]. discriminate.
Defined.

(** X11: a save that fails after the file was opened costs the old record:
    [open(path, "w")] has emptied the file, the error of the write is
    printed and swallowed, and the next start-up finds an empty save file,
    on which [json.load] raises [JSONDecodeError]. *)
Theorem failed_save_breaks_next_start (prefs : preferences) (env : environ)
    (save : json) (st : state) (e : oserror) (q : string) :
  faults st = [None; Some e] →
  realpath (files st) (fix_path env (save_path prefs)) = Some q →
  files st !! q ≠ Some Directory →
  ∃ st1,
    on_delete_window prefs env save st = (Return tt, st1) ∧
    stdout st1 = stdout st ++ [e] ∧
    files st1 !! q = Some (RegFile (Text EmptyString)) ∧
    fst (init_save prefs env st1) = Raise JSONDecodeError.
Proof.
  intros Hq Hr Hd. destruct st as [fs fl out au]. cbn in Hq, Hr, Hd. subst fl.
  exists (mkState (<[q := RegFile (Text EmptyString)]> fs) [] (out ++ [e]) au).
  pose proof (follow_not_link _ _ _ _ Hr) as Hk.
  split; [|split; [reflexivity|split; [apply lookup_insert_eq|]]].
  - unfold on_delete_window, write_json, json_dump. unfold_M. cbn -[Json.dumps].
    rewrite Hr.
    destruct (fs !! q) as [[c|t|]|] eqn:E;
      [|exfalso; exact (Hk t eq_refl)|congruence|]; reflexivity.
  - unfold init_save, mbind, M_bind. rewrite read_json_eq.
    unfold json_load. unfold_M. cbn.
    unfold realpath in *. rewrite (follow_insert_target _ _ _ _ _ Hr).
    rewrite lookup_insert_eq. cbn. rewrite lookup_insert_eq. reflexivity.
Qed.

Lemma failed_save_breaks_next_start_witness :
  ∃ st1,
    on_delete_window Sample.prefs (Sample.env None) (save_of (Some "de"))
      (Sample.start_with ∅ [None; Some (EnvFault 28)] false) = (Return tt, st1) ∧
    stdout st1 = [] ++ [EnvFault 28] ∧
    files st1 !! Sample.save_file = Some (RegFile (Text EmptyString)) ∧
    fst (init_save Sample.prefs (Sample.env None) st1) = Raise JSONDecodeError.
Proof.
  apply (failed_save_breaks_next_start Sample.prefs (Sample.env None) (save_of (Some "de"))
           (Sample.start_with ∅ [None; Some (EnvFault 28)] false) (EnvFault 28)
           Sample.save_file).
  - reflexivity.
  - vm_compute. reflexivity.
  - discriminate.
Defined.

(** X12: what start-up makes of a save file that holds valid JSON: a value
    that Python takes for false (null, false, 0, an empty string, list or
    dictionary) is replaced by [{"locale": None}]; every other value is
    kept as it is, a dictionary or not. *)
Theorem init_save_of_json_text (prefs : preferences) (env : environ)
    (st : state) (text : string) (v : json) :
  faults st = [] →
  holds_text (files st) (fix_path env (save_path prefs)) text →
  Json.loads text = Json.Decoded v →
  init_save prefs env st = (Return (if Json.truthy v then v else default_save), st).
Proof.
  intros Hq (q & Hr & Hn) Hl. destruct st as [fs fl out au]. cbn in Hq, Hr, Hn. subst fl.
  unfold init_save, mbind, M_bind. rewrite read_json_eq.
  unfold json_load. unfold_M. cbn -[Json.loads str_drop]. rewrite Hr, Hn.
  cbn -[Json.loads str_drop]. rewrite Hn. cbn -[Json.loads str_drop].
  rewrite str_drop_0, Hl. cbn. destruct (Json.truthy v); reflexivity.
Qed.

Lemma init_save_of_json_text_witness :
  init_save Sample.prefs (Sample.env None)
    (Sample.start {[ Sample.save_file := RegFile (Text "{}") ]})
  = (Return default_save, Sample.start {[ Sample.save_file := RegFile (Text "{}") ]}) ∧
  init_save Sample.prefs (Sample.env None)
    (Sample.start {[ Sample.save_file := RegFile (Text "[1]") ]})
  = (Return (JArr [JInt 1]), Sample.start {[ Sample.save_file := RegFile (Text "[1]") ]}).
Proof.
  split.
  - apply (init_save_of_json_text Sample.prefs (Sample.env None)
             (Sample.start {[ Sample.save_file := RegFile (Text "{}") ]}) "{}" (JObj [])).
    + reflexivity.
    + eexists. split; vm_compute; reflexivity.
    + reflexivity.
  - apply (init_save_of_json_text Sample.prefs (Sample.env None)
             (Sample.start {[ Sample.save_file := RegFile (Text "[1]") ]}) "[1]"
             (JArr [JInt 1])).
    + reflexivity.
    + eexists. split; vm_compute; reflexivity.
    + reflexivity.
Defined.

(** ** get_best_locale across restarts *)

(** X13: the resolver is stable: with the same system locale and the same
    catalogues, saving what it returned and asking again gives the same
    answer. *)
Theorem get_best_locale_stable (prefs : preferences) (env : environ)
    (fs : gmap string node) (saved r : option string) :
  get_best_locale prefs env fs saved = Return r →
  get_best_locale prefs env fs r = Return r.
Proof.
  unfold get_best_locale.
  destruct (isfile fs (mo_path prefs saved)) eqn:Hs.
  { intros [= <-]. now rewrite Hs. }
  destruct (decide (saved = Some (default_locale prefs))) as [->|Hd].
  { intros [= <-]. rewrite Hs.
    destruct (decide (Some (default_locale prefs) = Some (default_locale prefs)));
      [reflexivity|congruence]. }
  intros H.
  destruct (isfile fs (mo_path prefs r)) eqn:Hr; [reflexivity|].
  destruct (decide (r = Some (default_locale prefs))) as [->|Hrd]; [reflexivity|].
  exact H.
Qed.

Lemma get_best_locale_stable_witness :
  get_best_locale Sample.prefs (Sample.env (Some "en_US")) Sample.fs_en_US (Some "en-US")
    = Return (Some "en-US").
Proof.
  apply (get_best_locale_stable Sample.prefs (Sample.env (Some "en_US")) Sample.fs_en_US None).
  vm_compute. reflexivity.
Defined.

(** X14: the resolver returns [None] in one case only: nothing is saved
    and a catalogue exists under the name [None].  With a saved string,
    or without such a catalogue, what it returns is a string. *)
Theorem get_best_locale_returns_None (prefs : preferences) (env : environ)
    (fs : gmap string node) (saved : option string) :
  get_best_locale prefs env fs saved = Return None ↔
  saved = None ∧ asset_exists prefs fs None = true.
Proof.
  unfold get_best_locale, asset_exists. split.
  - destruct (isfile fs (mo_path prefs saved)) eqn:Hs.
    { intros [= ->]. auto. }
    destruct (decide (saved = Some (default_locale prefs))); [discriminate|].
    repeat case_match; discriminate.
  - intros [-> H]. now rewrite H.
Qed.

(** ** fix_path *)

Lemma occurs_app (c : ascii) (a b : string) :
  occurs c (a +:+ b) ↔ occurs c a ∨ occurs c b.
Proof.
  induction a as [|x a IH]; [cbn; tauto|].
  rewrite append_cons. cbn [occurs]. rewrite IH. tauto.
Qed.

Lemma fix_path_expand (env : environ) (path : string) :
  fix_path env path = expand_tilde (home env) path.
Proof.
  unfold fix_path. destruct (PyStr.contains "~" path) eqn:C.
  - apply replace_tilde.
  - symmetry. apply expand_tilde_id. rewrite <- contains_tilde_occurs. congruence.
Qed.

Lemma expand_tilde_app (home_dir a b : string) :
  expand_tilde home_dir (a +:+ b) = expand_tilde home_dir a +:+ expand_tilde home_dir b.
Proof.
  induction a as [|x a IH]; [reflexivity|].
  rewrite append_cons. cbn [expand_tilde]. rewrite IH.
  destruct (Ascii.eqb x "~"); [now rewrite append_assoc|reflexivity].
Qed.

Lemma expand_tilde_clean (home_dir path : string) :
  ¬ occurs "~"%char home_dir → ¬ occurs "~"%char (expand_tilde home_dir path).
Proof.
  intros Hh. induction path as [|x p IH]; [cbn; tauto|].
  cbn [expand_tilde]. destruct (Ascii.eqb_spec x "~") as [->|Hx].
  - rewrite occurs_app. tauto.
  - cbn [occurs]. tauto.
Qed.

(** X15: when the home directory has no tilde in its name, [fix_path]
    leaves no tilde in the path and applying it again changes nothing;
    and it always works piece by piece: fixing a concatenation is
    concatenating the fixed parts. *)
Theorem fix_path_clean_idempotent (env : environ) (a b : string) :
  fix_path env (a +:+ b) = fix_path env a +:+ fix_path env b ∧
  (¬ occurs "~"%char (home env) →
   ¬ occurs "~"%char (fix_path env a) ∧
   fix_path env (fix_path env a) = fix_path env a).
Proof.
  rewrite !fix_path_expand. split; [apply expand_tilde_app|].
  intros Hh. split; [now apply expand_tilde_clean|].
  apply expand_tilde_id. now apply expand_tilde_clean.
Qed.

Lemma fix_path_clean_idempotent_witness :
  ¬ occurs "~"%char (fix_path (Sample.env None) "~/.i3/config") ∧
  fix_path (Sample.env None) (fix_path (Sample.env None) "~/.i3/config")
    = fix_path (Sample.env None) "~/.i3/config".
Proof.
  apply (proj2 (fix_path_clean_idempotent (Sample.env None) "~/.i3/config" EmptyString)).
  cbn. intros H. repeat (destruct H as [H|H]; [discriminate H|]). exact H.
Defined.

Lemma get_best_locale_returns_None_witness :
  get_best_locale Sample.prefs (Sample.env None)
    {[ Sample.mo "None" := RegFile Undecodable ]} None = Return None.
Proof.
  apply (proj2 (get_best_locale_returns_None Sample.prefs (Sample.env None)
                  {[ Sample.mo "None" := RegFile Undecodable ]} None)).
  split; [reflexivity|vm_compute; reflexivity].
Defined.

(** X16: a name at the autostart path that is not a file (a dangling link, a
    directory) blocks switching on: [os.symlink] fails, the error is
    printed, and nothing else happens; the i3 configuration is not
    touched and [self.autostart] keeps its value. *)
Theorem set_autostart_blocked (prefs : preferences) (env : environ)
    (st : state) (n : node) :
  faults st = [] →
  files st !! link_path prefs env = Some n →
  isfile (files st) (link_path prefs env) = false →
  set_autostart prefs env true st =
    (Return tt, mkState (files st) [] (stdout st ++ [FileExistsError]) (self_autostart st)).
Proof.
  intros Hq Hn Hf. unfold set_autostart, try_except_OSError.
  rewrite set_autostart_body_split. unfold mbind, M_bind.
  rewrite (toggle_link_quiet prefs env true st Hq). cbv zeta. rewrite Hf, Hn.
  destruct st as [fs fl out au]. cbn in *. now subst fl.
Qed.

Lemma set_autostart_blocked_witness :
  set_autostart Sample.prefs (Sample.env None) true (Sample.start Sample.fs_dangling) =
    (Return tt, mkState Sample.fs_dangling [] ([] ++ [FileExistsError]) false).
Proof.
  apply (set_autostart_blocked Sample.prefs (Sample.env None)
           (Sample.start Sample.fs_dangling) (SymLink (desktop_path Sample.prefs))).
  - reflexivity.
  - vm_compute. reflexivity.
  - vm_compute. reflexivity.
Defined.

(** ** get_lsb_infos *)

Lemma prefix_char (x c : ascii) (s : string) :
  String.prefix (String x EmptyString) (String c s) = Ascii.eqb c x.
Proof.
  rewrite prefix_cons, prefix_empty.
  destruct (ascii_dec x c) as [<-|Hne]; [now rewrite Ascii.eqb_refl|].
  symmetry. apply Ascii.eqb_neq. congruence.
Qed.

Lemma contains_char_count (x : ascii) (s : string) :
  PyStr.contains (String x EmptyString) s = negb (count_char x s =? 0).
Proof.
  induction s as [|c s IH]; [reflexivity|].
  cbn [PyStr.contains count_char]. rewrite prefix_char, IH.
  destruct (Ascii.eqb c x); reflexivity.
Qed.

Lemma count_char_app (x : ascii) (a b : string) :
  count_char x (a +:+ b) = count_char x a + count_char x b.
Proof.
  induction a as [|c a IH]; [reflexivity|].
  rewrite append_cons. cbn [count_char]. rewrite IH. lia.
Qed.

Lemma rstrip_cons (c : ascii) (s : string) :
  PyText.is_space c = false → PyText.rstrip (String c s) = String c (PyText.rstrip s).
Proof.
  intros Hc. cbn [PyText.rstrip]. rewrite Hc. destruct (PyText.rstrip s); reflexivity.
Qed.

Lemma rstrip_app (a s : string) :
  PyText.rstrip s ≠ EmptyString → PyText.rstrip (a +:+ s) = a +:+ PyText.rstrip s.
Proof.
  intros Hs. induction a as [|x a IH]; [reflexivity|].
  rewrite !append_cons. cbn [PyText.rstrip]. rewrite IH.
  destruct (a +:+ PyText.rstrip s) eqn:E; [|reflexivity].
  destruct a; [cbn in E; contradiction|discriminate E].
Qed.

Lemma rstrip_app_blank (a b : string) :
  PyText.rstrip b = EmptyString → PyText.rstrip (a +:+ b) = PyText.rstrip a.
Proof.
  intros Hb. induction a as [|x a IH]; [exact Hb|].
  rewrite append_cons. cbn [PyText.rstrip]. now rewrite IH.
Qed.

Lemma count_char_rstrip (x : ascii) (s : string) :
  PyText.is_space x = false → count_char x (PyText.rstrip s) = count_char x s.
Proof.
  intros Hx. induction s as [|c s IH]; [reflexivity|].
  cbn [PyText.rstrip count_char]. rewrite <- IH.
  destruct (PyText.rstrip s) eqn:E.
  - destruct (PyText.is_space c) eqn:Hc; cbn [count_char]; [|lia].
    destruct (Ascii.eqb_spec c x) as [->|_]; [congruence|reflexivity].
  - reflexivity.
Qed.

Lemma count_char_rstrip_le (x : ascii) (s : string) :
  count_char x (PyText.rstrip s) ≤ count_char x s.
Proof.
  induction s as [|c s IH]; [reflexivity|].
  cbn [PyText.rstrip count_char].
  destruct (PyText.rstrip s) eqn:E.
  - destruct (PyText.is_space c); cbn [count_char] in *; lia.
  - cbn [count_char] in *. lia.
Qed.

Lemma split_on_length (x : ascii) (s : string) :
  List.length (PyText.split_on x s) = S (count_char x s).
Proof.
  induction s as [|c s IH]; [reflexivity|].
  cbn [PyText.split_on count_char].
  destruct (Ascii.eqb c x); cbn [List.length]; [now rewrite IH|].
  destruct (PyText.split_on x s); cbn [List.length] in *; [discriminate IH|exact IH].
Qed.

Lemma split_on_none (x : ascii) (s : string) :
  count_char x s = 0 → PyText.split_on x s = [s].
Proof.
  induction s as [|c s IH]; [reflexivity|].
  cbn [PyText.split_on count_char]. destruct (Ascii.eqb c x); [discriminate|].
  intros H. now rewrite IH.
Qed.

Lemma split_on_first (x : ascii) (a s : string) :
  count_char x a = 0 →
  PyText.split_on x (a +:+ String x s) = a :: PyText.split_on x s.
Proof.
  induction a as [|c a IH]; intros H.
  - change (EmptyString +:+ String x s) with (String x s).
    cbn [PyText.split_on]. now rewrite Ascii.eqb_refl.
  - rewrite append_cons. cbn [PyText.split_on]. cbn [count_char] in H.
    destruct (Ascii.eqb c x); [discriminate H|]. now rewrite IH.
Qed.

Lemma readlines_line (line rest : string) :
  count_char (ascii_of_nat 10) line = 0 →
  PyText.readlines (line +:+ String (ascii_of_nat 10) rest)
  = (line +:+ String (ascii_of_nat 10) EmptyString) :: PyText.readlines rest.
Proof.
  induction line as [|c line IH]; intros H.
  - change (PyText.readlines (String (ascii_of_nat 10) rest)
            = String (ascii_of_nat 10) EmptyString :: PyText.readlines rest).
    cbn [PyText.readlines]. now rewrite Ascii.eqb_refl.
  - rewrite !append_cons. cbn [PyText.readlines]. cbn [count_char] in H.
    destruct (Ascii.eqb c (ascii_of_nat 10)); [discriminate H|]. now rewrite IH.
Qed.

Lemma readlines_count (x : ascii) (text line : string) :
  line ∈ PyText.readlines text → count_char x line ≤ count_char x text.
Proof.
  revert line. induction text as [|c text IH]; intros line; cbn [PyText.readlines].
  - intros H. inversion H.
  - cbn [count_char]. destruct (Ascii.eqb c (ascii_of_nat 10)).
    + intros [->|H]%elem_of_cons.
      * cbn [count_char]. lia.
      * specialize (IH _ H). lia.
    + destruct (PyText.readlines text) as [|l ls] eqn:E.
      * intros ->%list_elem_of_singleton. cbn [count_char]. lia.
      * intros [->|H]%elem_of_cons.
        -- cbn [count_char]. specialize (IH l (list_elem_of_here _ _)). lia.
        -- specialize (IH line (list_elem_of_further _ _ _ H)). lia.
Qed.

Lemma lsb_read_text (st : state) (text : string) :
  faults st = [] → holds_text (files st) lsb_release_path text →
  lsb_read st = (Return (lsb_loop [] (PyText.readlines text)), st).
Proof.
  intros Hq (q & Hr & Hn). unfold lsb_read. destruct st as [fs fl out au].
  cbn in Hq, Hr, Hn. subst fl. unfold_M.
  cbn -[lsb_loop PyText.readlines str_drop]. rewrite Hr, Hn.
  cbn -[lsb_loop PyText.readlines str_drop]. rewrite Hn.
  cbn -[lsb_loop PyText.readlines str_drop]. now rewrite str_drop_0.
Qed.

Lemma read_only_lsb_read : read_only lsb_read.
Proof.
  unfold lsb_read, with_open. apply read_only_bind; [auto with fsys|]. intros f.
  apply read_only_closing. apply read_only_bind; [auto with fsys|].
  intros [text f']. apply read_only_ret.
Qed.

Lemma get_lsb_infos_files (st : state) :
  files (snd (get_lsb_infos st)) = files st.
Proof.
  unfold get_lsb_infos. destruct (lsb_read st) as [r st'] eqn:E.
  apply read_only_lsb_read in E.
  repeat case_match; simplify_eq/=; exact E.
Qed.

(** X17: without a readable [/etc/lsb-release] (the path is not a file)
    [get_lsb_infos] prints the error of [open] and returns the pair
    ['not Manjaro', '0.0']; no file is changed. *)
Theorem get_lsb_infos_not_manjaro (st : state) :
  isfile (files st) lsb_release_path = false →
  ∃ e st', get_lsb_infos st = (LsbReturn "not Manjaro" "0.0", st')
           ∧ stdout st' = stdout st ++ [e]
           ∧ files st' = files st.
Proof.
  intros H. pose proof (get_lsb_infos_files st) as Hfs.
  unfold get_lsb_infos in *. unfold lsb_read in *.
  revert Hfs. unfold with_open, mbind, M_bind.
  destruct (open_ lsb_release_path mode_r st) as [r st1] eqn:E.
  assert (Hout : stdout st1 = stdout st ∧ ∃ e, r = Raise (OSError e)).
  { revert E. unfold isfile in H. unfold_M. cbn.
    repeat case_match; simplify_eq/=; intros [= <- <-]; eauto. }
  destruct Hout as (Hout & e & ->). cbn. intros Hfs.
  exists e. eexists. split; [reflexivity|]. cbn. now rewrite Hout.
Qed.

Lemma get_lsb_infos_not_manjaro_witness :
  ∃ e st', get_lsb_infos (Sample.start ∅) = (LsbReturn "not Manjaro" "0.0", st')
           ∧ stdout st' = stdout (Sample.start ∅) ++ [e]
           ∧ files st' = files (Sample.start ∅).
Proof.
  apply (get_lsb_infos_not_manjaro (Sample.start ∅)). vm_compute. reflexivity.
Defined.

Lemma lsb_line_two_equals (lsb : list (string * string)) (line : string) :
  2 ≤ count_char "=" line → lsb_line lsb line = None.
Proof.
  intros H. unfold lsb_line.
  rewrite (contains_char_count "=" line).
  destruct (count_char "=" line =? 0) eqn:E0; [apply Nat.eqb_eq in E0; lia|].
  cbn [negb].
  pose proof (split_on_length "=" (PyText.rstrip line)) as Hl.
  rewrite (count_char_rstrip "=" line eq_refl) in Hl.
  destruct (PyText.split_on "=" (PyText.rstrip line)) as [|a [|b [|c l]]];
    cbn [List.length] in Hl; try reflexivity; lia.
Qed.

Lemma lsb_loop_two_equals (lines : list string) (line : string) :
  line ∈ lines → 2 ≤ count_char "=" line →
  ∀ lsb, lsb_loop lsb lines = None.
Proof.
  intros Hin H2. induction lines as [|l lines IH]; [inversion Hin|].
  intros lsb. cbn [lsb_loop].
  apply elem_of_cons in Hin as [<-|Hin].
  - now rewrite lsb_line_two_equals.
  - destruct (lsb_line lsb l); [now apply IH|reflexivity].
Qed.

(** X18: a line of [/etc/lsb-release] with two or more [=] signs (as in
    [DISTRIB_DESCRIPTION="a=b"]) makes [get_lsb_infos] raise [ValueError]:
    the unpacking [var, arg = line.rstrip().split("=")] gets three parts,
    and the handler covers [OSError] and [KeyError] only. *)
Theorem get_lsb_infos_two_equals_raises (st : state) (text line : string) :
  faults st = [] →
  holds_text (files st) lsb_release_path text →
  line ∈ PyText.readlines text →
  2 ≤ count_char "=" line →
  get_lsb_infos st = (LsbRaise ValueError, st).
Proof.
  intros Hq Ht Hin H2. unfold get_lsb_infos.
  rewrite (lsb_read_text st text Hq Ht).
  now rewrite (lsb_loop_two_equals _ line Hin H2).
Qed.

Lemma get_lsb_infos_two_equals_raises_witness :
  get_lsb_infos (Sample.start (fs_lsb "DISTRIB_DESCRIPTION=a=b"))
  = (LsbRaise ValueError, Sample.start (fs_lsb "DISTRIB_DESCRIPTION=a=b")).
Proof.
  apply (get_lsb_infos_two_equals_raises
           (Sample.start (fs_lsb "DISTRIB_DESCRIPTION=a=b"))
           "DISTRIB_DESCRIPTION=a=b" "DISTRIB_DESCRIPTION=a=b").
  - reflexivity.
  - exists lsb_release_path. split; vm_compute; reflexivity.
  - vm_compute. apply list_elem_of_here.
  - vm_compute. lia.
Defined.

Lemma lsb_line_no_equals (lsb : list (string * string)) (line : string) :
  count_char "=" line = 0 → lsb_line lsb line = Some lsb.
Proof.
  intros H. unfold lsb_line. rewrite (contains_char_count "=" line), H. reflexivity.
Qed.

Lemma lsb_loop_no_equals (lines : list string) (lsb : list (string * string)) :
  (∀ line, line ∈ lines → count_char "=" line = 0) → lsb_loop lsb lines = Some lsb.
Proof.
  induction lines as [|l lines IH]; intros H; [reflexivity|].
  cbn [lsb_loop]. rewrite lsb_line_no_equals by (apply H, list_elem_of_here).
  apply IH. intros line Hin. apply H. now apply list_elem_of_further.
Qed.

(** X19: an [/etc/lsb-release] without any [=] sign (an empty file, for
    one) makes [get_lsb_infos] raise [KeyError] for [CODENAME]: the
    look-ups of the final [return] come after the [try] statement, so its
    [except (OSError, KeyError)] clause does not cover them. *)
Theorem get_lsb_infos_no_entry_raises_KeyError (st : state) (text : string) :
  faults st = [] →
  holds_text (files st) lsb_release_path text →
  count_char "=" text = 0 →
  get_lsb_infos st = (LsbRaise (KeyError "CODENAME"), st).
Proof.
  intros Hq Ht H0. unfold get_lsb_infos.
  rewrite (lsb_read_text st text Hq Ht).
  rewrite lsb_loop_no_equals; [reflexivity|].
  intros line Hin. pose proof (readlines_count "=" text line Hin). lia.
Qed.

Lemma get_lsb_infos_no_entry_raises_KeyError_witness :
  get_lsb_infos (Sample.start (fs_lsb EmptyString))
  = (LsbRaise (KeyError "CODENAME"), Sample.start (fs_lsb EmptyString)).
Proof.
  apply (get_lsb_infos_no_entry_raises_KeyError (Sample.start (fs_lsb EmptyString))
           EmptyString).
  - reflexivity.
  - exists lsb_release_path. split; vm_compute; reflexivity.
  - reflexivity.
Defined.

Lemma sdict_set_nonempty (k v : string) (d : list (string * string)) :
  v ≠ EmptyString → Forall (λ kv, snd kv ≠ EmptyString) d →
  Forall (λ kv, snd kv ≠ EmptyString) (sdict_set k v d).
Proof.
  intros Hv. induction 1 as [|[k' v'] d Hk Hd IH]; cbn [sdict_set].
  - repeat constructor. exact Hv.
  - destruct (String.eqb k k'); constructor; auto.
Qed.

Lemma sdict_get_nonempty (k v : string) (d : list (string * string)) :
  Forall (λ kv, snd kv ≠ EmptyString) d → sdict_get k d = Some v → v ≠ EmptyString.
Proof.
  induction 1 as [|[k' v'] d Hk Hd IH]; cbn [sdict_get]; [discriminate|].
  destruct (String.eqb k k'); [intros [= <-]; exact Hk|exact IH].
Qed.

Lemma lsb_line_nonempty (lsb lsb' : list (string * string)) (line : string) :
  Forall (λ kv, snd kv ≠ EmptyString) lsb → lsb_line lsb line = Some lsb' →
  Forall (λ kv, snd kv ≠ EmptyString) lsb'.
Proof.
  intros Hd. unfold lsb_line.
  destruct (PyStr.contains "=" line); [|intros [= <-]; exact Hd].
  destruct (PyText.split_on "=" (PyText.rstrip line)) as [|var [|arg [|x l]]];
    try discriminate.
  cbv zeta. destruct (String.eqb_spec (lsb_arg arg) EmptyString) as [E|E]; cbn [negb].
  - intros [= <-]. exact Hd.
  - intros [= <-]. now apply sdict_set_nonempty.
Qed.

Lemma lsb_loop_nonempty (lines : list string) (lsb lsb' : list (string * string)) :
  Forall (λ kv, snd kv ≠ EmptyString) lsb → lsb_loop lsb lines = Some lsb' →
  Forall (λ kv, snd kv ≠ EmptyString) lsb'.
Proof.
  revert lsb. induction lines as [|l lines IH]; intros lsb Hd; cbn [lsb_loop].
  - intros [= <-]. exact Hd.
  - destruct (lsb_line lsb l) as [d|] eqn:E; [|discriminate].
    apply IH. exact (lsb_line_nonempty _ _ _ Hd E).
Qed.

Lemma lsb_read_nonempty (st st' : state) (lsb : list (string * string)) :
  lsb_read st = (Return (Some lsb), st') → Forall (λ kv, snd kv ≠ EmptyString) lsb.
Proof.
  unfold lsb_read. unfold_M. cbn -[lsb_loop PyText.readlines str_drop].
  repeat case_match; simplify_eq/=; intros [= E _];
    exact (lsb_loop_nonempty _ _ _ (Forall_nil_2 _) E).
Qed.

(** X20: whatever the file holds and whatever fails, a pair returned by
    [get_lsb_infos] has no empty component: empty values never enter the
    dictionary ([if arg:]), and the fall-back pair is not empty either. *)
Theorem get_lsb_infos_never_empty (st st' : state) (codename release : string) :
  get_lsb_infos st = (LsbReturn codename release, st') →
  codename ≠ EmptyString ∧ release ≠ EmptyString.
Proof.
  unfold get_lsb_infos. destruct (lsb_read st) as [[[lsb|]|e] st1] eqn:E.
  - pose proof (lsb_read_nonempty _ _ _ E) as Hd.
    destruct (sdict_get "CODENAME" lsb) as [c|] eqn:Ec; [|discriminate].
    destruct (sdict_get "RELEASE" lsb) as [r|] eqn:Er; [|discriminate].
    intros [= <- <- _]. split; eapply sdict_get_nonempty; eauto.
  - discriminate.
  - destruct e; try discriminate. intros [= <- <- _]. split; discriminate.
Qed.

Lemma get_lsb_infos_never_empty_witness :
  "Hakoila" ≠ EmptyString ∧ "17.1.12" ≠ EmptyString.
Proof.
  apply (get_lsb_infos_never_empty (Sample.start (fs_lsb (lsb_text lsb_sample)))
           (Sample.start (fs_lsb (lsb_text lsb_sample)))).
  vm_compute. reflexivity.
Defined.

Lemma sdict_get_set (k k' v : string) (d : list (string * string)) :
  sdict_get k (sdict_set k' v d) = if String.eqb k k' then Some v else sdict_get k d.
Proof.
  induction d as [|[k2 v2] d IH]; cbn [sdict_set sdict_get]; [reflexivity|].
  destruct (String.eqb_spec k' k2) as [->|Hne]; cbn [sdict_get].
  - destruct (String.eqb k k2); reflexivity.
  - rewrite IH. destruct (String.eqb_spec k k2) as [->|Hk]; [|reflexivity].
    destruct (String.eqb_spec k2 k'); [congruence|reflexivity].
Qed.

Lemma lsb_entry_ok_parts (entry : string * string) :
  lsb_entry_ok entry = true →
  count_char "=" (fst entry) = 0 ∧ count_char "=" (snd entry) = 0 ∧
  count_char (ascii_of_nat 10) (fst entry) = 0 ∧
  count_char (ascii_of_nat 10) (snd entry) = 0.
Proof.
  unfold lsb_entry_ok. rewrite !andb_true_iff, !Nat.eqb_eq. tauto.
Qed.

Lemma lsb_entry_line_eq (entry : string * string) :
  lsb_entry_line entry
  = (fst entry +:+ String "=" (snd entry)) +:+ String (ascii_of_nat 10) EmptyString.
Proof. unfold lsb_entry_line. now rewrite append_assoc, append_cons. Qed.

Lemma readlines_lsb_text (entries : list (string * string)) :
  forallb lsb_entry_ok entries = true →
  PyText.readlines (lsb_text entries) = map lsb_entry_line entries.
Proof.
  induction entries as [|entry rest IH]; [reflexivity|].
  cbn [forallb lsb_text map]. intros [Hok Hrest]%andb_true_iff.
  apply lsb_entry_ok_parts in Hok as (_ & _ & Hv & Ha).
  rewrite lsb_entry_line_eq, append_assoc, append_cons.
  change (EmptyString +:+ lsb_text rest) with (lsb_text rest).
  rewrite readlines_line, (IH Hrest); [reflexivity|].
  rewrite count_char_app. cbn [count_char]. rewrite Hv, Ha. reflexivity.
Qed.

Lemma rstrip_line_feed (arg : string) :
  PyText.rstrip (arg +:+ String (ascii_of_nat 10) EmptyString) = PyText.rstrip arg.
Proof. now apply rstrip_app_blank. Qed.

Lemma lsb_line_entry (lsb : list (string * string)) (entry : string * string) :
  lsb_entry_ok entry = true →
  lsb_line lsb (lsb_entry_line entry) = Some (lsb_step lsb entry).
Proof.
  intros (Hv & Ha & _)%lsb_entry_ok_parts. destruct entry as [var arg]. cbn [fst snd] in *.
  unfold lsb_line, lsb_entry_line, lsb_step. cbn [fst snd].
  rewrite (contains_char_count "="), count_char_app. cbn [count_char].
  rewrite Ascii.eqb_refl.
  replace (count_char "=" var + (1 + count_char "=" (arg +:+ String (ascii_of_nat 10) EmptyString)) =? 0)
    with false by (symmetry; apply Nat.eqb_neq; lia).
  cbn [negb].
  rewrite rstrip_app; [|rewrite rstrip_cons by reflexivity; discriminate].
  rewrite rstrip_cons by reflexivity. rewrite rstrip_line_feed.
  rewrite (split_on_first "=" var _ Hv).
  rewrite split_on_none; [|pose proof (count_char_rstrip_le "=" arg); lia].
  cbv zeta. destruct (negb _); reflexivity.
Qed.

Lemma lsb_loop_entries (entries : list (string * string)) (lsb : list (string * string)) :
  forallb lsb_entry_ok entries = true →
  lsb_loop lsb (map lsb_entry_line entries) = Some (fold_left lsb_step entries lsb).
Proof.
  revert lsb. induction entries as [|entry rest IH]; intros lsb; [reflexivity|].
  cbn [forallb map lsb_loop fold_left]. intros [Hok Hrest]%andb_true_iff.
  rewrite (lsb_line_entry lsb entry Hok). now apply IH.
Qed.

Lemma sdict_get_entries (key : string) (entries : list (string * string))
    (lsb : list (string * string)) :
  sdict_get key (fold_left lsb_step entries lsb)
  = match lsb_last key entries with
    | Some v => Some v
    | None => sdict_get key lsb
    end.
Proof.
  revert lsb. induction entries as [|[var arg] rest IH]; intros lsb; [reflexivity|].
  cbn [fold_left lsb_last]. rewrite IH.
  destruct (lsb_last key rest); [reflexivity|].
  unfold lsb_step. cbn [fst snd].
  destruct (negb (String.eqb (lsb_arg (PyText.rstrip arg)) EmptyString)).
  - rewrite sdict_get_set, andb_true_r. destruct (String.eqb key (lsb_var var)); reflexivity.
  - now rewrite andb_false_r.
Qed.

(** X21: on a file of lines [var=arg] (no further [=] in a line) and with no
    failure of the environment, [get_lsb_infos] returns the values of
    [CODENAME] and [RELEASE], each from the last line that gives the key a
    non-empty value, with the prefix [DISTRIB_] of the key, the blanks at
    the end of the line and one pair of double quotes around the value
    taken off; a key without such a line raises [KeyError]. *)
Theorem get_lsb_infos_reads_entries (st : state) (entries : list (string * string)) :
  faults st = [] →
  holds_text (files st) lsb_release_path (lsb_text entries) →
  forallb lsb_entry_ok entries = true →
  get_lsb_infos st
  = (lsb_return (lsb_last "CODENAME" entries) (lsb_last "RELEASE" entries), st).
Proof.
  intros Hq Ht Hok. unfold get_lsb_infos.
  rewrite (lsb_read_text st _ Hq Ht), (readlines_lsb_text _ Hok),
    (lsb_loop_entries _ [] Hok), !sdict_get_entries.
  cbn [sdict_get]. unfold lsb_return.
  destruct (lsb_last "CODENAME" entries), (lsb_last "RELEASE" entries); reflexivity.
Qed.

Lemma get_lsb_infos_reads_entries_witness :
  get_lsb_infos (Sample.start (fs_lsb (lsb_text lsb_sample)))
  = (lsb_return (lsb_last "CODENAME" lsb_sample) (lsb_last "RELEASE" lsb_sample),
     Sample.start (fs_lsb (lsb_text lsb_sample))).
Proof.
  apply (get_lsb_infos_reads_entries (Sample.start (fs_lsb (lsb_text lsb_sample)))
           lsb_sample).
  - reflexivity.
  - exists lsb_release_path. split; vm_compute; reflexivity.
  - vm_compute. reflexivity.
Defined.
